(** * Visio Dashboard: order fulfilment, ledger and dashboard aggregates

    A shallow embedding of the order, stock and reporting code of [app.py].

    - The SQLite tables are explicit state: [Product] and [Order] rows are
      finite maps keyed by primary key (they are fetched with [query.get]),
      [OrderItem] and [Transaction] rows are lists in insertion order.
    - A request handler is a function from the committed database to a
      [result]: [Ok] carries the database after [db.session.commit()],
      [Err] is an aborted request (the session is discarded, so the
      committed database stays as it was).
    - Python floats (prices and amounts) are kept abstract in the class
      [Money]: the handlers only add amounts, multiply a price by an
      integer, call [round(_, 2)] and store the result, and what is
      proved below holds for any interpretation of these operations.  The
      instance on [Q] is exact arithmetic and serves the concrete
      examples.  The aggregates read SQL's SUM as the addition of the
      selected amounts, from 0, in the order of the table, and take the
      amounts to add up to a number (for a sum that is NaN, which takes
      infinite amounts of both signs, SQLite answers NULL).
    - Integers are Python's unbounded integers ([Z]).  An SQLite INTEGER
      holds 64 bits, and its driver raises OverflowError on a Python int
      outside that range, whether it is a column of a row that is written
      or the parameter of a query ([sqlite_int]).  SQLAlchemy writes the
      rows when the session is flushed, which is later than the
      assignment ([session]).
    - [int(s)] is a parameter ([PyInt]): what it gives on a short string
      of ASCII characters is fixed ([ascii_int]); on any other string it
      is whatever Python's [int] gives.
    - The clock, the random generator and the logged-in user are inputs
      ([env]).  The order and stock views are modelled for a logged-in
      user; the user administration models the login and role checks. *)

From Stdlib Require Import ZArith QArith Qround Ascii.
From stdpp Require Import gmap strings list fin_maps sorting pretty.

Close Scope Q_scope.
Local Open Scope Z_scope.

(** ** Amounts *)

Class Money (M : Type) := {
  m_zero : M;               (* the literal 0 *)
  m_add : M → M → M;        (* a + b *)
  m_scale : M → Z → M;      (* price * int(qty) *)
  m_round2 : M → M;         (* round(a, 2) *)
  m_nan : M → bool;         (* a != a: not a number, which SQLite stores
                               as NULL *)
  m_round2_zero : m_round2 m_zero = m_zero;   (* round(0, 2) == 0 *)
  m_nan_zero : m_nan m_zero = false;
}.

(** ** Integers that leave Python

    An INTEGER of SQLite is a signed 64-bit value.  A float takes an int
    whose nearest double is finite; [float * int] raises OverflowError on
    any other. *)

Definition sqlite_int (z : Z) : bool := (- 2 ^ 63 <=? z) && (z <? 2 ^ 63).

Definition float_int (z : Z) : bool := Z.abs z <? 2 ^ 1024 - 2 ^ 970.

(* range(hi, -1, -1) *)
Definition range_down (hi : nat) : list nat := rev (seq 0 (S hi)).

Definition sum_Z (l : list Z) : Z := foldr Z.add 0 l.

(** ** Calendar dates ([datetime.date], [datetime.datetime]) *)

Record date := Date { year : Z; month : Z; day : Z }.

(* seconds and microseconds are folded into one count since midnight *)
Record datetime := DateTime { dt_date : date; dt_time : N }.

#[global] Instance date_eq_dec : EqDecision date.
Proof. solve_decision. Defined.

#[global] Instance datetime_eq_dec : EqDecision datetime.
Proof. solve_decision. Defined.

Definition is_leap (y : Z) : bool :=
  (y mod 4 =? 0) && (negb (y mod 100 =? 0) || (y mod 400 =? 0)).

Definition days_in_month (y m : Z) : Z :=
  if m =? 2 then (if is_leap y then 29 else 28)
  else if (m =? 4) || (m =? 6) || (m =? 9) || (m =? 11) then 30
  else 31.

Definition valid_date (d : date) : Prop :=
  1 ≤ month d ≤ 12 ∧ 1 ≤ day d ≤ days_in_month (year d) (month d).

#[global] Instance valid_date_dec d : Decision (valid_date d).
Proof. unfold valid_date. apply _. Defined.

Definition next_day (d : date) : date :=
  if day d <? days_in_month (year d) (month d)
  then Date (year d) (month d) (day d + 1)
  else if month d <? 12 then Date (year d) (month d + 1) 1
  else Date (year d + 1) 1 1.

Definition prev_day (d : date) : date :=
  if 1 <? day d then Date (year d) (month d) (day d - 1)
  else if 1 <? month d
  then Date (year d) (month d - 1) (days_in_month (year d) (month d - 1))
  else Date (year d - 1) 12 31.

(* d + timedelta(days=n) and d - timedelta(days=n), for n >= 0 *)
Definition add_days (n : nat) (d : date) : date := Nat.iter n next_day d.
Definition sub_days (n : nat) (d : date) : date := Nat.iter n prev_day d.

(* d.replace(day=1) *)
Definition replace_day1 (d : date) : date := Date (year d) (month d) 1.

Definition date_ltb (a b : date) : bool :=
  (year a <? year b)
  || ((year a =? year b)
      && ((month a <? month b) || ((month a =? month b) && (day a <? day b)))).

Definition date_leb (a b : date) : bool := negb (date_ltb b a).

(* A DateTime column compared with a date: the date is bound as that day
   at 00:00:00. *)
Definition midnight (d : date) : datetime := DateTime d 0%N.

Definition datetime_ltb (a b : datetime) : bool :=
  date_ltb (dt_date a) (dt_date b)
  || (bool_decide (dt_date a = dt_date b) && (dt_time a <? dt_time b)%N).

Definition datetime_leb (a b : datetime) : bool := negb (datetime_ltb b a).

Definition month_abbr (m : Z) : string :=
  if m =? 1 then "Jan" else if m =? 2 then "Feb" else if m =? 3 then "Mar"
  else if m =? 4 then "Apr" else if m =? 5 then "May" else if m =? 6 then "Jun"
  else if m =? 7 then "Jul" else if m =? 8 then "Aug" else if m =? 9 then "Sep"
  else if m =? 10 then "Oct" else if m =? 11 then "Nov" else "Dec".

Definition pad2 (n : Z) : string :=
  if n <? 10 then "0" +:+ pretty n else pretty n.

Definition pad4 (n : Z) : string :=
  if n <? 10 then "000" +:+ pretty n
  else if n <? 100 then "00" +:+ pretty n
  else if n <? 1000 then "0" +:+ pretty n
  else pretty n.

(* strftime('%Y%m%d'), strftime('%b'), strftime('%b %d') *)
Definition strftime_Ymd (d : date) : string :=
  pad4 (year d) +:+ pad2 (month d) +:+ pad2 (day d).
Definition strftime_b (d : date) : string := month_abbr (month d).
Definition strftime_b_d (d : date) : string :=
  month_abbr (month d) +:+ " " +:+ pad2 (day d).

(** ** [int(s)] on form fields

    On a string of ASCII characters [int] reads surrounding white space
    (tab, line feed, vertical tab, form feed, carriage return, space),
    one optional sign, decimal digits, single underscores between
    digits. *)

(* the characters that str.strip() removes *)
Definition is_space (c : ascii) : bool :=
  let n := nat_of_ascii c in
  ((9 <=? n)%nat && (n <=? 13)%nat) || ((28 <=? n)%nat && (n <=? 32)%nat).

(* the characters that int() skips around an ASCII literal *)
Definition is_int_space (c : ascii) : bool :=
  let n := nat_of_ascii c in
  ((9 <=? n)%nat && (n <=? 13)%nat) || (n =? 32)%nat.

Definition digit_of (c : ascii) : option Z :=
  let n := nat_of_ascii c in
  if ((48 <=? n)%nat && (n <=? 57)%nat) then Some (Z.of_nat n - 48) else None.

Fixpoint lstrip (space : ascii → bool) (l : list ascii) : list ascii :=
  match l with
  | c :: l' => if space c then lstrip space l' else l
  | [] => []
  end.

Definition strip (space : ascii → bool) (l : list ascii) : list ascii :=
  rev (lstrip space (rev (lstrip space l))).

Fixpoint parse_digits (acc : Z) (l : list ascii) : option Z :=
  match l with
  | [] => Some acc
  | c :: l' =>
      match digit_of c with
      | Some d => parse_digits (10 * acc + d) l'
      | None =>
          if Ascii.eqb c "_"
          then match l' with
               | c' :: _ => if digit_of c' is Some _ then parse_digits acc l' else None
               | [] => None
               end
          else None
      end
  end.

Definition parse_number (l : list ascii) : option Z :=
  match l with
  | c :: _ => if digit_of c is Some _ then parse_digits 0 l else None
  | [] => None
  end.

Definition ascii_int (s : string) : option Z :=
  match strip is_int_space (String.list_ascii_of_string s) with
  | c :: l =>
      if Ascii.eqb c "-" then Z.opp <$> parse_number l
      else if Ascii.eqb c "+" then parse_number l
      else parse_number (c :: l)
  | [] => None
  end.

(* A string of at most 640 ASCII characters.  Beyond ASCII [int] also
   reads the decimal digits and the white space of other scripts; and a
   release that limits the length of a decimal literal rejects one of
   more than 4300 digits, or of as many as it is configured for, 640 at
   the least. *)
Definition plain (s : string) : bool :=
  forallb (λ c, (nat_of_ascii c <? 128)%nat) (String.list_ascii_of_string s)
  && (String.length s <=? 640)%nat.

(* [py_int s] is int(s) for a str [s], [None] when it raises ValueError. *)
Class PyInt := {
  py_int : string → option Z;
  py_int_plain : ∀ s, plain s = true → py_int s = ascii_int s;
}.

(* an [int] that reads plain strings and nothing else: the one of the
   concrete cases, all of whose fields are plain *)
#[global] Instance plain_int : PyInt := {|
  py_int s := if plain s then ascii_int s else None;
  py_int_plain s Hs :=
    @eq_ind_r bool true
      (λ b : bool, (if b then ascii_int s else None) = ascii_int s)
      eq_refl (plain s) Hs;
|}.

(* a Python string is true when it is not empty *)
Definition truthy (s : string) : bool := negb (String.eqb s "").

(** ** Requests and their outcome *)

Inductive error :=
  | BadRequest       (* request.form[k] on a missing key: 400 *)
  | NotFound         (* get_or_404: 404 *)
  | ValueError       (* int() on a string that is no integer: 500 *)
  | OverflowError    (* an int that SQLite or a float cannot take: 500 *)
  | IntegrityError.  (* a UNIQUE or NOT NULL constraint fails at flush:
                        500 *)

Inductive result (A : Type) :=
  | Ok (a : A)
  | Err (e : error).
Arguments Ok {A} a.
Arguments Err {A} e.

#[global] Instance result_ret : MRet result := λ A a, Ok a.
#[global] Instance result_bind : MBind result := λ A B k r,
  match r with
  | Ok a => k a
  | Err e => Err e
  end.

Definition of_option {A} (e : error) (o : option A) : result A :=
  match o with
  | Some a => Ok a
  | None => Err e
  end.

(* request.form: a multi-dict from field names to the submitted values *)
Abbreviation form := (gmap string (list string)).

(* request.form.get(k) *)
Definition form_get (f : form) (k : string) : option string := f !! k ≫= head.
(* request.form[k] *)
Definition form_item (f : form) (k : string) : result string :=
  of_option BadRequest (form_get f k).
(* request.form.getlist(k) *)
Definition form_getlist (f : form) (k : string) : list string :=
  default [] (f !! k).

(* int(s) as a statement that may raise *)
Definition int_of `{!PyInt} (s : string) : result Z :=
  of_option ValueError (py_int s).

Record env := Env {
  now : datetime;          (* datetime.now() *)
  utcnow : datetime;       (* datetime.utcnow() *)
  rand4 : Z;               (* random.randint(1000, 9999) *)
  current_user_id : Z;     (* current_user.id, the key of a stored user *)
}.

(* Primary keys: SQLite gives a new row the largest key in use plus one
   (as long as that key is not the largest INTEGER). *)
Definition next_id (ids : list Z) : Z := 1 + foldr Z.max 0 ids.

Definition generate_order_number (e : env) : string :=
  "ORD-" +:+ strftime_Ymd (dt_date (now e)) +:+ "-" +:+ pretty (rand4 e).

Definition statuses : list string :=
  ["pending"; "confirmed"; "shipped"; "delivered"; "cancelled"].

(** ** The tables *)

Section Model.
Context {M : Type} `{!Money M} {python : PyInt}.

(* Product and Order rows are stored under their primary key [id]. *)
Record Product := {
  name : string;
  sku : string;
  category : option string;
  price : M;
  cost : M;
  stock_quantity : Z;
  min_stock_level : Z;
  description : option string;
  p_created_at : datetime;
}.

Record Order := {
  order_number : string;
  customer_id : Z;
  status : string;
  total_amount : M;
  created_at : datetime;
  created_by : Z;
}.

Record OrderItem := {
  oi_id : Z;
  order_id : Z;
  product_id : Z;
  quantity : Z;
  unit_price : M;
}.

Record Transaction := {
  t_id : Z;
  transaction_type : string;
  t_category : option string;
  amount : M;
  t_description : option string;
  reference : option string;
  t_date : date;
  t_created_at : datetime;
  t_created_by : option Z;
}.

Record Db := {
  products : gmap Z Product;
  orders : gmap Z Order;
  order_items : list OrderItem;
  transactions : list Transaction;
}.

(* the rows of a keyed table, and the keys in use *)
Definition rows {A} (t : gmap Z A) : list A := (map_to_list t).*2.
Definition keys {A} (t : gmap Z A) : list Z := (map_to_list t).*1.

(* order.items: the relationship follows OrderItem.order_id *)
Definition items_of (db : Db) (oid : Z) : list OrderItem :=
  filter (λ it, order_id it = oid) (order_items db).

(* product.stock_quantity = q *)
Definition set_stock (p : Product) (q : Z) : Product :=
  {| name := name p; sku := sku p; category := category p; price := price p;
     cost := cost p; stock_quantity := q; min_stock_level := min_stock_level p;
     description := description p; p_created_at := p_created_at p |}.

(* order.status = s *)
Definition set_status (o : Order) (s : string) : Order :=
  {| order_number := order_number o; customer_id := customer_id o; status := s;
     total_amount := total_amount o; created_at := created_at o;
     created_by := created_by o |}.

(* order.total_amount = a *)
Definition set_total (o : Order) (a : M) : Order :=
  {| order_number := order_number o; customer_id := customer_id o;
     status := status o; total_amount := a; created_at := created_at o;
     created_by := created_by o |}.

(* Model.query.get_or_404(id), for the id of a route, a natural number.
   The id is the parameter of a query: one that SQLite cannot take raises
   OverflowError.  No stored row has such an id, so the row is looked up
   first and nothing needs to be assumed of the keys of a table. *)
Definition get_or_404 {A} (t : gmap Z A) (id : Z) : result A :=
  match t !! id with
  | Some row => Ok row
  | None => Err (if sqlite_int id then NotFound else OverflowError)
  end.

(** ** Stock adjustment: POST /products/adjust-stock/<id> *)

Definition adjust_stock (id : Z) (f : form) (db : Db) : result Db :=
  product ← get_or_404 (products db) id;
  (* int(request.form.get('adjustment', 0)) *)
  delta ← match form_get f "adjustment" with
          | Some s => int_of s
          | None => Ok 0
          end;
  let product' :=
    set_stock product (Z.max 0 (stock_quantity product + delta)) in
  (* db.session.commit() writes the new stock *)
  if sqlite_int (stock_quantity product')
  then Ok {| products := <[id := product']> (products db); orders := orders db;
             order_items := order_items db; transactions := transactions db |}
  else Err OverflowError.

(** ** Order creation: POST /orders/add *)

(* what the loop over the submitted lines changes *)
Record cart := {
  c_products : gmap Z Product;
  c_items : list OrderItem;
  c_total : M;
}.

(* the body of [if product:]: the item with the price of the moment, the
   running total, the stock floored at 0 *)
Definition book_item (oid : Z) (st : cart) (p : Z) (product : Product) (q : Z)
  : cart :=
  let item := {| oi_id := next_id (oi_id <$> c_items st);
                 order_id := oid; product_id := p; quantity := q;
                 unit_price := price product |} in
  {| c_products :=
       <[p := set_stock product (Z.max 0 (stock_quantity product - q))]>
         (c_products st);
     c_items := c_items st ++ [item];
     c_total := m_add (c_total st) (m_scale (price product) q) |}.

(* What the session holds that SQLite has not been sent yet.  In the
   loop these are the order items added since the last flush, and the
   new stock of the product they are for: the session hands out the
   product it holds changed without a query, any other product is reached
   through a query, and a query flushes the session first (autoflush).
   So a stock that is set again before the next flush is never written,
   and an integer that SQLite does not hold is only noticed at the
   flush. *)
Record session := {
  s_dirty : option Z;   (* the product whose stock has been set *)
  s_new_fit : bool;     (* the quantities of the new items fit an INTEGER *)
}.

Definition clean : session := {| s_dirty := None; s_new_fit := true |}.

(* a flush writes the new items and the stock of the dirty product *)
Definition can_flush (ss : session) (ps : gmap Z Product) : bool :=
  s_new_fit ss
  && match s_dirty ss ≫= (ps !!.) with
     | Some product => sqlite_int (stock_quantity product)
     | None => true
     end.

(* Product.query.get(p): the product that the session holds changed is
   handed out as it is; for any other id SQLite is asked, and the session
   is flushed before it is. *)
Definition query_get (ss : session) (st : cart) (p : Z) : result session :=
  if bool_decide (s_dirty ss = Some p) then Ok ss
  else if can_flush ss (c_products st) then Ok clean
  else Err OverflowError.

(* one turn of the loop over zip(product_id[], quantity[]) *)
Definition add_line (oid : Z) (ss : session) (st : cart)
    (line : string * string) : result (session * cart) :=
  let '(pid, qty) := line in
  if truthy pid && truthy qty then
    p ← int_of pid;
    ss' ← query_get ss st p;
    match c_products st !! p with
    | Some product =>
        q ← int_of qty;
        if float_int q
        then Ok ({| s_dirty := Some p;
                    s_new_fit := s_new_fit ss' && sqlite_int q |},
                 book_item oid st p product q)
        else Err OverflowError
    | None => if sqlite_int p then Ok (ss', st) else Err OverflowError
    end
  else Ok (ss, st).

Fixpoint add_lines (oid : Z) (lines : list (string * string)) (ss : session)
    (st : cart) : result (session * cart) :=
  match lines with
  | [] => Ok (ss, st)
  | line :: rest =>
      r ← add_line oid ss st line; add_lines oid rest r.1 r.2
  end.

Definition add_order (e : env) (f : form) (db : Db) : result Db :=
  let number := generate_order_number e in
  cid ← form_item f "customer_id" ≫= int_of;
  (* db.session.add(order); db.session.flush(): customer_id is an
     INTEGER, order_number is UNIQUE *)
  if negb (sqlite_int cid) then Err OverflowError
  else if bool_decide (number ∈ (order_number <$> rows (orders db)))
  then Err IntegrityError
  else
    let oid := next_id (keys (orders db)) in
    let order := {| order_number := number; customer_id := cid;
                    status := "pending"; total_amount := m_zero;
                    created_at := utcnow e; created_by := current_user_id e |} in
    r ← add_lines oid
          (zip (form_getlist f "product_id[]") (form_getlist f "quantity[]"))
          clean
          {| c_products := products db; c_items := order_items db;
             c_total := m_zero |};
    let st := r.2 in
    let txn := {| t_id := next_id (t_id <$> transactions db);
                  transaction_type := "income"; t_category := Some "Sales";
                  amount := c_total st;
                  t_description := Some ("Order " +:+ number);
                  reference := Some number; t_date := dt_date (now e);
                  t_created_at := utcnow e;
                  t_created_by := Some (current_user_id e) |} in
    (* db.session.commit() flushes what is left; Transaction.amount is
       NOT NULL *)
    if negb (can_flush r.1 (c_products st)) then Err OverflowError
    else if m_nan (c_total st) then Err IntegrityError
    else
      Ok {| products := c_products st;
            orders := <[oid := set_total order (c_total st)]> (orders db);
            order_items := c_items st;
            transactions := transactions db ++ [txn] |}.

(** ** Order life cycle *)

(* POST /orders/update-status/<id> *)
Definition update_order_status (id : Z) (f : form) (db : Db) : result Db :=
  order ← get_or_404 (orders db) id;
  match form_get f "status" with
  | Some new_status =>
      if bool_decide (new_status ∈ statuses)
      then Ok {| products := products db;
                 orders := <[id := set_status order new_status]> (orders db);
                 order_items := order_items db;
                 transactions := transactions db |}
      else Ok db
  | None => Ok db
  end.

(* POST /orders/delete/<id>; Order.items cascades 'all, delete-orphan' *)
Definition delete_order (id : Z) (db : Db) : result Db :=
  _ ← get_or_404 (orders db) id;
  Ok {| products := products db;
        orders := delete id (orders db);
        order_items := filter (λ it, order_id it ≠ id) (order_items db);
        transactions := transactions db |}.

(** ** Dashboard aggregates *)

(* db.session.query(db.func.sum(col)).filter(..).scalar(): the sum of the
   selected rows, NULL (None) when no row is selected *)
Definition sql_sum (l : list M) : option M :=
  match l with
  | [] => None
  | _ => Some (foldl m_add m_zero l)
  end.

(* [x or 0]: None becomes 0 (and a sum that is zero stays zero) *)
Definition or_zero (o : option M) : M := default m_zero o.

Record sales_point := { sp_date : string; sales : M }.

(* the body of the loop of get_sales_chart_data, for one [i] *)
Definition sales_entry (e : env) (db : Db) (i : nat) : sales_point :=
  let date := sub_days i (dt_date (now e)) in
  let daily_sales :=
    or_zero (sql_sum (total_amount <$>
      filter (λ o, dt_date (created_at o) = date ∧ status o ≠ "cancelled")
             (rows (orders db)))) in
  {| sp_date := strftime_b_d date; sales := m_round2 daily_sales |}.

Definition get_sales_chart_data (e : env) (db : Db) : list sales_point :=
  sales_entry e db <$> range_down 6.

Record month_point := { mp_month : string; revenue : M }.

(* the body of the loop of get_monthly_revenue, for one [i] *)
Definition revenue_entry (e : env) (db : Db) (i : nat) : month_point :=
  let date := sub_days (i * 30) (dt_date (now e)) in
  let month_start := replace_day1 date in
  let next_month :=
    if (0 <? i)%nat then replace_day1 (add_days 32 month_start)
    else add_days 1 (dt_date (now e)) in
  let monthly_revenue :=
    or_zero (sql_sum (total_amount <$>
      filter (λ o, datetime_leb (midnight month_start) (created_at o)
                   ∧ datetime_ltb (created_at o) (midnight next_month)
                   ∧ status o ≠ "cancelled")
             (rows (orders db)))) in
  {| mp_month := strftime_b month_start; revenue := m_round2 monthly_revenue |}.

Definition get_monthly_revenue (e : env) (db : Db) : list month_point :=
  revenue_entry e db <$> range_down 5.


(* ORDER BY sum(quantity) DESC *)
Definition sold_desc (a b : Z * string * Z) : Prop := b.2 ≤ a.2.

#[global] Instance sold_desc_dec : RelDecision sold_desc.
Proof. intros a b. unfold sold_desc. apply _. Defined.

#[global] Instance sold_desc_trans : Transitive sold_desc.
Proof. unfold sold_desc. intros a b c. lia. Qed.

#[global] Instance sold_desc_total : Total sold_desc.
Proof. unfold sold_desc. intros a b. lia. Qed.




(** ** Sequences of stock-changing requests *)

Inductive request :=
  | CreateOrder (e : env) (f : form)
  | AdjustStock (id : Z) (f : form).

Definition handle (r : request) (db : Db) : result Db :=
  match r with
  | CreateOrder e f => add_order e f db
  | AdjustStock id f => adjust_stock id f db
  end.

(* the committed database after a request: an aborted request leaves it
   as it was *)
Definition commit (r : result Db) (db : Db) : Db :=
  match r with
  | Ok db' => db'
  | Err _ => db
  end.

Definition run (rs : list request) (db : Db) : Db :=
  foldl (λ d r, commit (handle r d) d) db rs.

End Model.

(** ** Notions used to state the properties *)

Section Notions.
Context {M : Type} `{!Money M} {python : PyInt}.

Implicit Types (db : @Db M).

(* Σ quantity × unit_price over a list of items, added up from 0 in the
   order of the list *)
Definition items_total (its : list (@OrderItem M)) : M :=
  foldl (λ acc it, m_add acc (m_scale (unit_price it) (quantity it))) m_zero its.

(* every order item belongs to a stored order *)
Definition no_orphan_items db : Prop :=
  Forall (λ it, is_Some (orders db !! order_id it)) (order_items db).

#[global] Instance no_orphan_items_dec db : Decision (no_orphan_items db).
Proof. unfold no_orphan_items. apply _. Defined.

(* no product has a negative stock quantity *)
Definition stock_nonneg db : Prop :=
  map_Forall (λ _ p, 0 ≤ stock_quantity p) (products db).

#[global] Instance stock_nonneg_dec db : Decision (stock_nonneg db).
Proof. unfold stock_nonneg. apply _. Defined.

(* The submitted lines of an order form, and a form with other lines. *)
Definition form_lines (f : form) : list (string * string) :=
  zip (form_getlist f "product_id[]") (form_getlist f "quantity[]").

Definition with_lines (f : form) (lines : list (string * string)) : form :=
  <["product_id[]" := lines.*1]> (<["quantity[]" := lines.*2]> f).

(* A line that names a product and a quantity, read against the ids of
   the stored products: [Some (p, q)] when product [p] exists and the
   quantity is the integer [q]. *)
Definition valid_line (ids : gset Z) (line : string * string)
  : option (Z * Z) :=
  if truthy line.1 && truthy line.2 then
    p ← py_int line.1;
    if bool_decide (p ∈ ids) then q ← py_int line.2; Some (p, q) else None
  else None.

(* A line whose product id is an integer that no stored product has, and
   that SQLite can be asked for. *)
Definition missing_line (ids : gset Z) (line : string * string) : bool :=
  truthy line.1 && truthy line.2 &&
  match py_int line.1 with
  | Some p => bool_decide (p ∉ ids) && sqlite_int p
  | None => false
  end.

(* The lines whose fields can be read: blank ones, lines of a missing
   product, and valid ones. *)
Definition line_accepted (ids : gset Z) (line : string * string) : bool :=
  if truthy line.1 && truthy line.2 then
    match py_int line.1 with
    | Some p =>
        if bool_decide (p ∈ ids) then bool_decide (is_Some (py_int line.2))
        else sqlite_int p
    | None => false
    end
  else true.

(* Every field of the order form is a plain string: what [int] makes of
   the form is known. *)
Definition form_plain (f : form) : bool :=
  match form_get f "customer_id" with
  | Some s => plain s
  | None => true
  end
  && forallb plain (form_getlist f "product_id[]")
  && forallb plain (form_getlist f "quantity[]").

(* The customer id of the form is an integer that SQLite can hold. *)
Definition customer_accepted (f : form) : bool :=
  match form_get f "customer_id" ≫= py_int with
  | Some cid => sqlite_int cid
  | None => false
  end.

(* The order form can be read: a customer id that is accepted, lines that
   are accepted, and an order number not in use.  Stock levels play no
   part. *)
Definition order_accepted (e : env) (f : form) db : bool :=
  customer_accepted f
  && bool_decide (generate_order_number e ∉ order_number <$> rows (orders db))
  && forallb (line_accepted (dom (products db))) (form_lines f).

(* Booking the pairs (product, quantity) one after the other fits SQLite:
   each quantity, and each stock level written on the way, is a 64-bit
   integer. *)
Fixpoint booked_fit (ps : gmap Z (@Product M)) (booked : list (Z * Z)) : bool :=
  match booked with
  | [] => true
  | (p, q) :: rest =>
      match ps !! p with
      | Some product =>
          let s := Z.max 0 (stock_quantity product - q) in
          sqlite_int q && sqlite_int s
          && booked_fit (<[p := set_stock product s]> ps) rest
      | None => booked_fit ps rest
      end
  end.

(* The cart after the pairs (product, quantity) have been booked one
   after the other. *)
Fixpoint book_all (oid : Z) (st : @cart M) (booked : list (Z * Z)) : @cart M :=
  match booked with
  | [] => st
  | (p, q) :: rest =>
      match c_products st !! p with
      | Some product => book_all oid (book_item oid st p product q) rest
      | None => book_all oid st rest
      end
  end.

(* The valid lines of the form fit SQLite. *)
Definition order_fits (f : form) db : bool :=
  booked_fit (products db) (omap (valid_line (dom (products db))) (form_lines f)).

(* Σ price × quantity over the pairs, at the prices of [ps], added up from
   [acc] in the order of the list *)
Definition booked_total (ps : gmap Z (@Product M)) (acc : M)
    (booked : list (Z * Z)) : M :=
  foldl (λ a pq, match ps !! pq.1 with
                 | Some product => m_add a (m_scale (price product) pq.2)
                 | None => a
                 end) acc booked.

(* The total of the valid lines of the form. *)
Definition order_total (f : form) db : M :=
  booked_total (products db) m_zero
    (omap (valid_line (dom (products db))) (form_lines f)).

(* The sum of total_amount over the orders of calendar day [d] that are
   not cancelled, 0 when there is none. *)
Definition daily_total db (d : date) : M :=
  or_zero (sql_sum (total_amount <$>
    filter (λ o, dt_date (created_at o) = d ∧ status o ≠ "cancelled")
           (rows (orders db)))).

(* The same over the calendar month [m] of year [y]. *)
Definition month_total db (y m : Z) : M :=
  or_zero (sql_sum (total_amount <$>
    filter (λ o, year (dt_date (created_at o)) = y
                 ∧ month (dt_date (created_at o)) = m
                 ∧ status o ≠ "cancelled")
           (rows (orders db)))).

(* The same over the month of [today], up to and including [today]. *)
Definition month_to_date_total db (today : date) : M :=
  or_zero (sql_sum (total_amount <$>
    filter (λ o, year (dt_date (created_at o)) = year today
                 ∧ month (dt_date (created_at o)) = month today
                 ∧ date_leb (dt_date (created_at o)) today
                 ∧ status o ≠ "cancelled")
           (rows (orders db)))).

(* every stored order carries a date of the calendar *)
Definition created_dates_valid db : Prop :=
  Forall (λ o, valid_date (dt_date (created_at o))) (rows (orders db)).

#[global] Instance created_dates_valid_dec db :
  Decision (created_dates_valid db).
Proof. unfold created_dates_valid. apply _. Defined.


End Notions.

(** ** Exact amounts: the instance on [Q] *)

(* round half to even at two decimals, as round(x, 2) does on a value
   that a float holds exactly *)
Definition Qround2 (x : Q) : Q :=
  let y := Qmult x (100 # 1) in
  let n := Qfloor y in
  let r := Qminus y (inject_Z n) in
  let n' := match Qcompare r (1 # 2) with
            | Lt => n
            | Gt => n + 1
            | Eq => if Z.even n then n else n + 1
            end in
  Qred (Qmake n' 100).

#[global] Instance Q_eq_dec : EqDecision Q.
Proof. solve_decision. Defined.

#[global] Instance Q_money : Money Q := {|
  m_zero := 0%Q;
  m_add a b := Qred (Qplus a b);
  m_scale p q := Qred (Qmult p (inject_Z q));
  m_round2 := Qround2;
  m_nan _ := false;
  m_round2_zero := eq_refl;
  m_nan_zero := eq_refl;
|}.

(** ** A small shop, for the concrete cases *)

Module Shop.

Definition morning (d : date) : datetime := DateTime d 36000000000.

Definition product (nm sk : string) (pr : Q) (stock : Z) : @Product Q :=
  {| name := nm; sku := sk; category := None; price := pr; cost := 0%Q;
     stock_quantity := stock; min_stock_level := 10; description := None;
     p_created_at := morning (Date 2025 1 2) |}.

(* the two products of the worked example, A at 10 with 5 in stock and B
   at 5 with 1 in stock, and a product C at 0.125 *)
Definition catalog : gmap Z (@Product Q) :=
  <[1 := product "ProductA" "A-1" (10 # 1) 5]>
    (<[2 := product "ProductB" "B-2" (5 # 1) 1]>
       (<[3 := product "ProductC" "C-3" (1 # 8) 50]> ∅)).

Definition db0 : @Db Q :=
  {| products := catalog; orders := ∅; order_items := [];
     transactions := [] |}.

Definition june15 : env :=
  {| now := morning (Date 2025 6 15); utcnow := morning (Date 2025 6 15);
     rand4 := 4711; current_user_id := 1 |}.

Definition march31 : env :=
  {| now := morning (Date 2025 3 31); utcnow := morning (Date 2025 3 31);
     rand4 := 4711; current_user_id := 1 |}.

Definition march20 : env :=
  {| now := morning (Date 2025 3 20); utcnow := morning (Date 2025 3 20);
     rand4 := 2000; current_user_id := 1 |}.

Definition february10 : env :=
  {| now := morning (Date 2025 2 10); utcnow := morning (Date 2025 2 10);
     rand4 := 1000; current_user_id := 1 |}.

Definition order_form (pids qtys : list string) : form :=
  <["customer_id" := ["1"]]>
    (<["product_id[]" := pids]> (<["quantity[]" := qtys]> ∅)).

(* 3 of A and 2 of B *)
Definition form_ab : form := order_form ["1"; "2"] ["3"; "2"].
(* 3 of A and 1 of a product that does not exist *)
Definition form_a_missing : form := order_form ["1"; "99"] ["3"; "1"].
(* no line at all *)
Definition form_empty : form := {["customer_id" := ["1"]]}.

Definition db_ab : @Db Q := commit (add_order june15 form_ab db0) db0.
Definition db_a : @Db Q := commit (add_order june15 form_a_missing db0) db0.


Definition cart0 : @cart Q :=
  {| c_products := catalog; c_items := []; c_total := 0%Q |}.

(* the adjustment by SQLite's largest INTEGER, 2^63 - 1 *)
Definition form_plus_max : form :=
  {["adjustment" := ["9223372036854775807"]]}.

(* an order form without lines, for the customer that the field names *)
Definition form_customer (c : string) : form := {["customer_id" := [c]]}.

Definition form_cancel : form := {["status" := ["cancelled"]]}.
Definition form_refunded : form := {["status" := ["refunded"]]}.
Definition form_minus7 : form := {["adjustment" := ["-7"]]}.

Definition stored_order (num : string) (st : string) (total : Q) (d : date)
  : @Order Q :=
  {| order_number := num; customer_id := 1; status := st;
     total_amount := total; created_at := morning d; created_by := 1 |}.

(* one order of 0.125 (1 of C), placed on 15 June 2025 *)
Definition db_eighth : @Db Q :=
  run [CreateOrder june15 (order_form ["3"] ["1"])] db0.

(* an order of 100 (10 of A) placed on 10 February 2025 and one of 0.125
   (1 of C) placed on 20 March 2025 *)
Definition db_march : @Db Q :=
  run [CreateOrder february10 (order_form ["1"] ["10"]);
       CreateOrder march20 (order_form ["3"] ["1"])] db0.

End Shop.

(** ** More of the application: the other order, stock and dashboard
    code, the inventory report and the user administration *)

(* s.upper() and s.lower() on ASCII letters, s.capitalize(); the strings
   of the forms are taken to be ASCII *)
Definition upper_ascii (c : ascii) : ascii :=
  let n := nat_of_ascii c in
  if ((97 <=? n)%nat && (n <=? 122)%nat) then ascii_of_nat (n - 32) else c.

Definition lower_ascii (c : ascii) : ascii :=
  let n := nat_of_ascii c in
  if ((65 <=? n)%nat && (n <=? 90)%nat) then ascii_of_nat (n + 32) else c.

Fixpoint lower (s : string) : string :=
  match s with
  | EmptyString => EmptyString
  | String c s' => String (lower_ascii c) (lower s')
  end.

Definition capitalize (s : string) : string :=
  match s with
  | EmptyString => EmptyString
  | String c s' => String (upper_ascii c) (lower s')
  end.

(* s.strip() *)
Definition py_strip (s : string) : string :=
  String.string_of_list_ascii
    (strip is_space (String.list_ascii_of_string s)).

(* [s or default] for a nullable string column *)
Definition label_or (default : string) (o : option string) : string :=
  match o with
  | Some s => if truthy s then s else default
  | None => default
  end.

Class MoneySub (M : Type) := {
  m_sub : M → M → M;        (* a - b *)
}.

Section MoreModel.
Context {M : Type} `{!Money M} {python : PyInt}.

(** *** Products and orders *)

(* POST /products/delete/<id>.  Order items keep the id of a deleted
   product: SQLite does not enforce the foreign key. *)
Definition delete_product (id : Z) (db : @Db M) : result (@Db M) :=
  _ ← get_or_404 (products db) id;
  Ok {| products := delete id (products db); orders := orders db;
        order_items := order_items db; transactions := transactions db |}.

(* GET /orders/add: the products offered by the order form *)
Definition order_form_products (db : @Db M) : list (Z * @Product M) :=
  filter (λ p, 0 < stock_quantity p.2) (map_to_list (products db)).

Inductive action :=
  | PlaceOrder (e : env) (f : form)
  | Adjust (id : Z) (f : form)
  | SetStatus (id : Z) (f : form)
  | DeleteOrder (id : Z)
  | DeleteProduct (id : Z).

Definition perform (a : action) (db : @Db M) : result (@Db M) :=
  match a with
  | PlaceOrder e f => add_order e f db
  | Adjust id f => adjust_stock id f db
  | SetStatus id f => update_order_status id f db
  | DeleteOrder id => delete_order id db
  | DeleteProduct id => delete_product id db
  end.

Definition serve (acts : list action) (db : @Db M) : @Db M :=
  foldl (λ d a, commit (perform a d) d) db acts.

(** *** The other dashboard aggregates *)

Record status_point := { sp_status : string; sp_count : nat }.

Definition get_order_status_data (db : @Db M) : list status_point :=
  (λ s, {| sp_status := capitalize s;
           sp_count := length (filter (λ o, status o = s) (rows (orders db))) |})
  <$> statuses.

Record cash_point := { cp_date : string; income : M; expense : M }.

(* the body of the loop of get_income_vs_expense, for one [i] *)
Definition cash_entry (e : env) (db : @Db M) (i : nat) : cash_point :=
  let date := sub_days i (dt_date (now e)) in
  let daily_income :=
    or_zero (sql_sum (amount <$>
      filter (λ t, t_date t = date ∧ transaction_type t = "income")
             (transactions db))) in
  let daily_expense :=
    or_zero (sql_sum (amount <$>
      filter (λ t, t_date t = date ∧ transaction_type t = "expense")
             (transactions db))) in
  {| cp_date := strftime_b_d date; income := m_round2 daily_income;
     expense := m_round2 daily_expense |}.

Definition get_income_vs_expense (e : env) (db : @Db M) : list cash_point :=
  cash_entry e db <$> range_down 6.

Record category_point := { cat_label : string; cat_revenue : M }.

(* The rows of Product JOIN OrderItem JOIN Order that pass
   Order.status != 'cancelled': an order item with the category of its
   product, when the product and the order are stored and the order is
   not cancelled.  The rows are taken in the order of the order items. *)
Definition revenue_rows (db : @Db M) : list (option string * @OrderItem M) :=
  omap (λ it,
          p ← products db !! product_id it;
          o ← orders db !! order_id it;
          if bool_decide (status o ≠ "cancelled") then Some (category p, it)
          else None)
       (order_items db).

(* GROUP BY Product.category with sum(quantity * unit_price); the groups
   come in the order in which the categories first occur *)
Definition get_revenue_by_category (db : @Db M) : list category_point :=
  let joined := revenue_rows db in
  (λ c, {| cat_label := label_or "Uncategorized" c;
           cat_revenue :=
             m_round2 (or_zero (sql_sum
               ((λ r, m_scale (unit_price r.2) (quantity r.2))
                  <$> filter (λ r, r.1 = c) joined))) |})
  <$> remove_dups (joined.*1).

(** *** The inventory report *)

Record inventory := {
  inv_products : list (Z * @Product M);
  total_value : M;
  low_stock : list (Z * @Product M);
  out_of_stock : list (Z * @Product M);
}.

Definition inventory_report (db : @Db M) : inventory :=
  let products := map_to_list (products db) in
  {| inv_products := products;
     total_value :=
       foldl (λ acc p, m_add acc (m_scale (price p.2) (stock_quantity p.2)))
             m_zero products;
     low_stock :=
       filter (λ p, stock_quantity p.2 ≤ min_stock_level p.2) products;
     out_of_stock := filter (λ p, stock_quantity p.2 = 0) products |}.

(** *** Customers, employees and users *)

Record Customer := {
  c_name : string;
  c_email : string;
  phone : option string;
  address : option string;
  c_created_at : datetime;
  c_created_by : option Z;
}.

Record Employee := {
  employee_id : string;
  e_name : string;
  e_email : string;
  department : option string;
  position : option string;
  salary : M;
  hire_date : option date;
  e_status : string;
  e_created_at : datetime;
}.

Record User := {
  email : string;
  password_hash : string;
  full_name : string;
  role : string;
  is_active : bool;
  u_created_at : datetime;
  last_login : option datetime;
}.

Record Site := {
  shop : @Db M;
  customers : gmap Z Customer;
  employees : gmap Z Employee;
  users : gmap Z User;
}.

Record dashboard_stats := {
  total_orders : nat;
  total_revenue : M;
  pending_orders : nat;
  total_customers : nat;
  total_products : nat;
  low_stock_count : nat;
  total_employees : nat;
  total_income : M;
  total_expense : M;
  net_profit : M;
}.

Definition get_dashboard_stats `{!MoneySub M} (s : Site) : dashboard_stats :=
  let income :=
    or_zero (sql_sum (amount <$>
      filter (λ t, transaction_type t = "income") (transactions (shop s)))) in
  let expense :=
    or_zero (sql_sum (amount <$>
      filter (λ t, transaction_type t = "expense") (transactions (shop s)))) in
  {| total_orders := length (rows (orders (shop s)));
     total_revenue :=
       or_zero (sql_sum (total_amount <$>
         filter (λ o, status o ≠ "cancelled") (rows (orders (shop s)))));
     pending_orders :=
       length (filter (λ o, status o = "pending") (rows (orders (shop s))));
     total_customers := length (rows (customers s));
     total_products := length (rows (products (shop s)));
     low_stock_count :=
       length (filter (λ p, stock_quantity p ≤ min_stock_level p)
                      (rows (products (shop s))));
     total_employees :=
       length (filter (λ em, e_status em = "active") (rows (employees s)));
     total_income := income;
     total_expense := expense;
     net_profit := m_sub income expense |}.

Record dept_point := { dp_department : string; dp_count : nat }.

(* GROUP BY department over the active employees; the groups come in the
   order in which the departments first occur *)
Definition get_employee_by_department (s : Site) : list dept_point :=
  let active := filter (λ em, e_status em = "active") (rows (employees s)) in
  (λ d, {| dp_department := label_or "Unassigned" d;
           dp_count := length (filter (λ em, department em = d) active) |})
  <$> remove_dups (department <$> active).

(** *** User administration

    [current] is the user id that the session cookie of the request
    carries, if any; Flask-Login loads that user. *)

Definition current_user (current : option Z) (s : Site) : option (Z * User) :=
  u ← current; usr ← users s !! u; Some (u, usr).

(* user.is_authenticated: the UserMixin of Flask-Login answers
   self.is_active, which for a User is the column of that name *)
Definition is_authenticated (u : User) : bool := is_active u.

(* current_user.is_authenticated; the anonymous user is not *)
Definition logged_in (current : option Z) (s : Site) : bool :=
  match current_user current s with
  | Some (_, cu) => is_authenticated cu
  | None => false
  end.

Definition set_users (s : Site) (us : gmap Z User) : Site :=
  {| shop := shop s; customers := customers s; employees := employees s;
     users := us |}.

(* user.is_active = b *)
Definition set_active (u : User) (b : bool) : User :=
  {| email := email u; password_hash := password_hash u;
     full_name := full_name u; role := role u; is_active := b;
     u_created_at := u_created_at u; last_login := last_login u |}.

(* user.role = r *)
Definition set_role (u : User) (r : string) : User :=
  {| email := email u; password_hash := password_hash u;
     full_name := full_name u; role := r; is_active := is_active u;
     u_created_at := u_created_at u; last_login := last_login u |}.

(* @login_required and @admin_required around a view: anyone who is not
   an authenticated admin is redirected and the view does not run *)
Definition admin_required (current : option Z) (s : Site)
    (view : Z → result Site) : result Site :=
  match current_user current s with
  | Some (uid, cu) =>
      if is_authenticated cu && bool_decide (role cu = "admin")
      then view uid else Ok s
  | None => Ok s
  end.

(* POST /users/toggle/<id> *)
Definition toggle_user (current : option Z) (id : Z) (s : Site) : result Site :=
  admin_required current s (λ uid,
    user ← get_or_404 (users s) id;
    if bool_decide (id = uid) then Ok s
    else Ok (set_users s
               (<[id := set_active user (negb (is_active user))]> (users s)))).

(* POST /users/role/<id> *)
Definition change_role (current : option Z) (id : Z) (f : form) (s : Site)
  : result Site :=
  admin_required current s (λ _,
    user ← get_or_404 (users s) id;
    let new_role := default "user" (form_get f "role") in
    if bool_decide (new_role ∈ ["admin"; "manager"; "user"])
    then Ok (set_users s (<[id := set_role user new_role]> (users s)))
    else Ok s).

(* POST /register; [hash] is generate_password_hash with the salt of the
   call.  A refused registration renders the form again and stores
   nothing. *)
Definition register (hash : string → string) (e : env) (current : option Z)
    (f : form) (s : Site) : result Site :=
  if logged_in current s then Ok s
  else
    let the_email := lower (py_strip (default "" (form_get f "email"))) in
    let password := default "" (form_get f "password") in
    let confirm_password := default "" (form_get f "confirm_password") in
    let the_name := py_strip (default "" (form_get f "full_name")) in
    if negb (truthy the_email) || negb (truthy password)
       || negb (truthy the_name) then Ok s
    else if negb (String.eqb password confirm_password) then Ok s
    else if (String.length password <? 6)%nat then Ok s
    else if bool_decide (the_email ∈ email <$> rows (users s)) then Ok s
    else
      let user :=
        {| email := the_email; password_hash := hash password;
           full_name := the_name;
           role := if bool_decide (rows (users s) = [])
                   then "admin" else "user";
           is_active := true; u_created_at := utcnow e;
           last_login := None |} in
      Ok (set_users s (<[next_id (keys (users s)) := user]> (users s))).

End MoreModel.

(** ** Notions for the further properties *)

Section MoreNotions.
Context {M : Type} `{!Money M} {python : PyInt}.

Implicit Types (db : @Db M).

(* every order's status is one of the five *)
Definition statuses_valid db : Prop :=
  Forall (λ o, status o ∈ statuses) (rows (orders db)).

#[global] Instance statuses_valid_dec db : Decision (statuses_valid db).
Proof. unfold statuses_valid. apply _. Defined.

(* no two orders carry the same order number *)
Definition order_numbers_unique db : Prop :=
  NoDup (order_number <$> rows (orders db)).

#[global] Instance order_numbers_unique_dec db :
  Decision (order_numbers_unique db).
Proof. unfold order_numbers_unique. apply _. Defined.

(* no two users carry the same e-mail address *)
Definition emails_unique (s : @Site M) : Prop :=
  NoDup (email <$> rows (users s)).

(* the site with another state of the shop tables *)
Definition with_shop (s : @Site M) db : @Site M :=
  {| shop := db; customers := customers s; employees := employees s;
     users := users s |}.

(* the order lines with the given fields *)
Definition with_fields (f : form) (pids qtys : list string) : form :=
  <["product_id[]" := pids]> (<["quantity[]" := qtys]> f).

(* the quantity of product [p] that the valid lines of a form ask for *)
Definition ordered_quantity (ids : gset Z) (lines : list (string * string))
    (p : Z) : Z :=
  sum_Z (snd <$> filter (λ pq, pq.1 = p) (omap (valid_line ids) lines)).

(* the sum of the ledger entries of type [ty] dated [d], 0 when there is
   none *)
Definition ledger_on db (ty : string) (d : date) : M :=
  or_zero (sql_sum (amount <$>
    filter (λ t, t_date t = d ∧ transaction_type t = ty) (transactions db))).

End MoreNotions.

(** ** A small back office, for the concrete cases *)

#[global] Instance Q_money_sub : MoneySub Q := {|
  m_sub a b := Qred (Qminus a b);
|}.

Module Desk.
Import Shop.

Definition staff (nm dept : string) (st : string) : @Employee Q :=
  {| employee_id := "EMP-10001"; e_name := nm; e_email := nm +:+ "@company.com";
     department := Some dept; position := None; salary := (1000 # 1)%Q;
     hire_date := None; e_status := st;
     e_created_at := morning (Date 2025 1 2) |}.

Definition account (mail rl : string) (active : bool) : User :=
  {| email := mail; password_hash := "x"; full_name := "Some One";
     role := rl; is_active := active;
     u_created_at := morning (Date 2025 1 2); last_login := None |}.

(* an admin (user 1) and a plain user (user 2); two active employees in
   Sales and a former one in HR *)
Definition site0 : @Site Q :=
  {| shop := db0; customers := ∅;
     employees := <[1 := staff "ann" "Sales" "active"]>
                    (<[2 := staff "bob" "Sales" "active"]>
                       {[3 := staff "cy" "HR" "inactive"]});
     users := <[1 := account "root@shop.com" "admin" true]>
                {[2 := account "clerk@shop.com" "user" true]} |}.

Definition site_empty : @Site Q :=
  {| shop := db0; customers := ∅; employees := ∅; users := ∅ |}.

(* the same site after the admin has been deactivated *)
Definition site_admin_off : @Site Q :=
  set_users site0 (<[1 := account "root@shop.com" "admin" false]> (users site0)).

Definition form_register : form :=
  <["email" := [" New@Shop.com "]]>
    (<["password" := ["secret1"]]>
       (<["confirm_password" := ["secret1"]]>
          {["full_name" := ["New Admin"]]})).

Definition form_role_manager : form := {["role" := ["manager"]]}.
Definition form_pending : form := {["status" := ["pending"]]}.

Definition salted (pw : string) : string := "pbkdf2:" +:+ pw.

Definition db_cancelled : @Db Q :=
  commit (update_order_status 1 form_cancel db_ab) db_ab.

Definition busy_day : list action :=
  [PlaceOrder june15 form_ab; SetStatus 1 form_cancel;
   PlaceOrder march20 form_a_missing; DeleteOrder 1; DeleteProduct 2].

End Desk.

Example Qround2_examples :
  Qround2 (1 # 8) = (3 # 25)%Q ∧ Qround2 (3 # 8) = (19 # 50)%Q
  ∧ Qround2 (5 # 2) = (5 # 2)%Q ∧ Qround2 (-1 # 8) = (-3 # 25)%Q.
Proof. repeat split; reflexivity. Qed.

Example ascii_int_examples :
  ascii_int "42" = Some 42 ∧ ascii_int " -7 " = Some (-7)
  ∧ ascii_int "+1_000" = Some 1000 ∧ ascii_int "" = None
  ∧ ascii_int "abc" = None ∧ ascii_int "1__0" = None
  ∧ ascii_int "3.5" = None ∧ ascii_int "007" = Some 7
  ∧ ascii_int "- 7" = None ∧ ascii_int "9223372036854775808" = Some (2 ^ 63)
  ∧ plain "9223372036854775808" = true.
Proof. repeat split; reflexivity. Qed.

Example sqlite_int_examples :
  sqlite_int (2 ^ 63 - 1) = true ∧ sqlite_int (2 ^ 63) = false
  ∧ sqlite_int (- 2 ^ 63) = true ∧ sqlite_int (- 2 ^ 63 - 1) = false
  ∧ float_int (2 ^ 63) = true ∧ float_int (2 ^ 1024 - 2 ^ 970 - 1) = true
  ∧ float_int (2 ^ 1024 - 2 ^ 970) = false.
Proof. repeat split; reflexivity. Qed.

Example order_number_example :
  generate_order_number
    (Env (DateTime (Date 2025 3 9) 0) (DateTime (Date 2025 3 9) 0) 4711 1)
  = "ORD-20250309-4711".
Proof. reflexivity. Qed.

(** * Properties *)

Lemma next_id_above (ids : list Z) (x : Z) : x ∈ ids → x < next_id ids.
Proof.
  unfold next_id. induction ids as [|y ids IH]; intros Hx.
  - by apply elem_of_nil in Hx.
  - apply elem_of_cons in Hx as [->|Hx]; simpl; [lia|].
    specialize (IH Hx). lia.
Qed.

Lemma next_id_fresh {A} (t : gmap Z A) : t !! next_id (keys t) = None.
Proof.
  destruct (t !! next_id (keys t)) as [a|] eqn:E; [|done].
  assert (next_id (keys t) ∈ keys t) as Hin.
  { unfold keys. apply list_elem_of_fmap. exists (next_id (keys t), a).
    split; [done|]. by apply elem_of_map_to_list. }
  apply next_id_above in Hin. lia.
Qed.

Lemma bind_Ok {A B} (r : result A) (k : A → result B) (b : B) :
  r ≫= k = Ok b ↔ ∃ a, r = Ok a ∧ k a = Ok b.
Proof.
  destruct r as [a|e]; simpl.
  - split; [eauto|]. by intros (a' & [= <-] & ?).
  - split; [done|]. by intros (a' & ? & ?).
Qed.

Lemma of_option_Ok {A} (e : error) (o : option A) (a : A) :
  of_option e o = Ok a ↔ o = Some a.
Proof. destruct o; simpl; split; congruence. Qed.

Lemma get_or_404_Ok {A} (t : gmap Z A) (id : Z) (a : A) :
  get_or_404 t id = Ok a ↔ t !! id = Some a.
Proof. unfold get_or_404. destruct (t !! id); split; congruence. Qed.

Lemma get_or_404_stored {A} (t : gmap Z A) (id : Z) (a : A) :
  t !! id = Some a → get_or_404 t id = Ok a.
Proof. apply get_or_404_Ok. Qed.

Lemma get_or_404_missing {A} (t : gmap Z A) (id : Z) :
  t !! id = None → sqlite_int id = true → get_or_404 t id = Err NotFound.
Proof. intros Hid Hrange. unfold get_or_404. by rewrite Hid, Hrange. Qed.

(** ** Calendar arithmetic *)

Lemma days_in_month_bounds y m : 28 ≤ days_in_month y m ≤ 31.
Proof.
  unfold days_in_month. destruct (m =? 2); [destruct (is_leap y); lia|].
  destruct ((m =? 4) || (m =? 6) || (m =? 9) || (m =? 11)); lia.
Qed.

Lemma prev_day_valid d : valid_date d → valid_date (prev_day d).
Proof.
  destruct d as [y m dd]. unfold valid_date, prev_day. simpl. intros [Hm Hd].
  destruct (Z.ltb_spec 1 dd); simpl; [lia|].
  destruct (Z.ltb_spec 1 m); simpl.
  - pose proof (days_in_month_bounds y (m - 1)). lia.
  - unfold days_in_month. simpl. lia.
Qed.

Lemma next_prev_day d : valid_date d → next_day (prev_day d) = d.
Proof.
  destruct d as [y m dd]. unfold valid_date, prev_day, next_day. simpl.
  intros [Hm Hd].
  destruct (Z.ltb_spec 1 dd); simpl.
  - destruct (Z.ltb_spec (dd - 1) (days_in_month y m)); [|lia].
    f_equal. lia.
  - destruct (Z.ltb_spec 1 m); simpl.
    + rewrite Z.ltb_irrefl.
      destruct (Z.ltb_spec (m - 1) 12); [|lia]. f_equal; lia.
    + assert (m = 1) as -> by lia. assert (dd = 1) as -> by lia.
      unfold days_in_month. simpl. f_equal. lia.
Qed.

Lemma sub_days_valid n d : valid_date d → valid_date (sub_days n d).
Proof.
  intros Hd. induction n as [|n IH]; [done|]. by apply prev_day_valid.
Qed.

Lemma add_days_add a b d : add_days (a + b) d = add_days a (add_days b d).
Proof. apply Nat.iter_add. Qed.

Lemma add_days_S n d : add_days (S n) d = next_day (add_days n d).
Proof. reflexivity. Qed.

Lemma add_days_within n y m d :
  d + Z.of_nat n ≤ days_in_month y m →
  add_days n (Date y m d) = Date y m (d + Z.of_nat n).
Proof.
  induction n as [|n IH]; intros Hn.
  - simpl. f_equal. lia.
  - rewrite add_days_S, IH by lia.
    unfold next_day. simpl.
    destruct (Z.ltb_spec (d + Z.of_nat n) (days_in_month y m)); [|lia].
    f_equal. lia.
Qed.

(* (month_start + timedelta(days=32)).replace(day=1) is the first day of
   the month after *)
Lemma first_of_next_month y m :
  1 ≤ m ≤ 12 →
  replace_day1 (add_days 32 (Date y m 1))
  = if m <? 12 then Date y (m + 1) 1 else Date (y + 1) 1 1.
Proof.
  intros Hm. pose proof (days_in_month_bounds y m) as HL.
  set (L := days_in_month y m) in *.
  replace 32%nat with (Z.to_nat (32 - L) + S (Z.to_nat (L - 1)))%nat by lia.
  rewrite add_days_add, add_days_S.
  rewrite add_days_within by (fold L; lia).
  replace (1 + Z.of_nat (Z.to_nat (L - 1))) with L by lia.
  unfold next_day. simpl. fold L. rewrite Z.ltb_irrefl.
  destruct (m <? 12).
  - pose proof (days_in_month_bounds y (m + 1)).
    by rewrite add_days_within by lia.
  - pose proof (days_in_month_bounds (y + 1) 1).
    by rewrite add_days_within by lia.
Qed.

Lemma date_ltb_lt a b :
  date_ltb a b = true
  ↔ year a < year b
    ∨ (year a = year b
       ∧ (month a < month b ∨ (month a = month b ∧ day a < day b))).
Proof.
  unfold date_ltb.
  rewrite orb_true_iff, andb_true_iff, orb_true_iff, andb_true_iff.
  rewrite !Z.ltb_lt, !Z.eqb_eq. tauto.
Qed.

Lemma before_midnight dt d :
  datetime_ltb dt (midnight d) = date_ltb (dt_date dt) d.
Proof.
  unfold datetime_ltb, midnight. simpl.
  destruct (dt_time dt); simpl; by rewrite andb_false_r, orb_false_r.
Qed.

Lemma not_before_midnight dt d :
  datetime_leb (midnight d) dt = negb (date_ltb (dt_date dt) d).
Proof. unfold datetime_leb. by rewrite before_midnight. Qed.

(* the window of a past bucket is one calendar month *)
Lemma month_window c y m :
  valid_date c → 1 ≤ m ≤ 12 →
  negb (date_ltb c (Date y m 1))
  && date_ltb c (if m <? 12 then Date y (m + 1) 1 else Date (y + 1) 1 1)
  = true
  ↔ year c = y ∧ month c = m.
Proof.
  intros [Hcm Hcd] Hm. rewrite andb_true_iff, negb_true_iff.
  rewrite <-not_true_iff_false, !date_ltb_lt.
  destruct (Z.ltb_spec m 12); simpl; lia.
Qed.

(* the window of the current bucket is the month so far *)
Lemma month_to_date_window c today :
  valid_date c → valid_date today →
  negb (date_ltb c (replace_day1 today)) && date_ltb c (add_days 1 today)
  = true
  ↔ year c = year today ∧ month c = month today ∧ date_leb c today = true.
Proof.
  intros [Hcm Hcd] [Hm Hd]. unfold date_leb, add_days, next_day. simpl.
  rewrite andb_true_iff, !negb_true_iff, <-!not_true_iff_false.
  pose proof (days_in_month_bounds (year c) (month c)).
  destruct (Z.ltb_spec (day today) (days_in_month (year today) (month today)));
    [|destruct (Z.ltb_spec (month today) 12)];
    rewrite !date_ltb_lt; simpl.
  - lia.
  - split; [|lia]. intros [Hlo Hhi].
    assert (year c = year today ∧ month c = month today) as [Hy Hmo] by lia.
    rewrite Hy, Hmo in Hcd. lia.
  - split; [|lia]. intros [Hlo Hhi].
    assert (year c = year today ∧ month c = month today) as [Hy Hmo] by lia.
    rewrite Hy, Hmo in Hcd. lia.
Qed.

Lemma filter_iff_on {A} (P1 P2 : A → Prop)
    `{!∀ x, Decision (P1 x), !∀ x, Decision (P2 x)} (l : list A) :
  (∀ x, x ∈ l → P1 x ↔ P2 x) → filter P1 l = filter P2 l.
Proof.
  induction l as [|a l IH]; intros Hiff; [done|].
  assert (filter P1 l = filter P2 l) as Hl.
  { apply IH. intros x Hx. apply Hiff. by right. }
  destruct (decide (P1 a)) as [Ha|Ha].
  - rewrite !filter_cons_True; [by rewrite Hl| |done].
    apply Hiff; [by left|done].
  - rewrite !filter_cons_False; [done| |done].
    intros Ha'. apply Ha, Hiff; [by left|done].
Qed.

Section Properties.
Context {M : Type} `{!Money M} {python : PyInt}.

Implicit Types (db : @Db M) (st : @cart M) (o : @Order M) (it : @OrderItem M).
Implicit Types (ss : session).

(** What one turn of the loop can do: skip the line, or book it. *)
Lemma add_line_inv oid ss st pid qty ss' st' :
  add_line oid ss st (pid, qty) = Ok (ss', st') →
  st' = st
  ∨ ∃ p q product,
      py_int pid = Some p ∧ py_int qty = Some q
      ∧ c_products st !! p = Some product
      ∧ st' = book_item oid st p product q.
Proof.
  unfold add_line.
  destruct (truthy pid && truthy qty); [|intros [= <- <-]; by left].
  intros (p & Hp%of_option_Ok & (ss1 & _ & H)%bind_Ok)%bind_Ok.
  destruct (c_products st !! p) as [product|] eqn:Hprod.
  - apply bind_Ok in H as (q & Hq%of_option_Ok & H).
    destruct (float_int q); [|done]. injection H as <- <-.
    right. by exists p, q, product.
  - destruct (sqlite_int p); [|done]. injection H as <- <-. by left.
Qed.

Lemma book_item_price oid st p product q k :
  c_products st !! p = Some product →
  price <$> c_products (book_item oid st p product q) !! k
  = price <$> c_products st !! k.
Proof.
  intros Hp. simpl. destruct (decide (p = k)) as [->|Hne].
  - by rewrite lookup_insert_eq, Hp.
  - by rewrite lookup_insert_ne.
Qed.

Lemma add_lines_spec oid lines ss st ss' st' :
  add_lines oid lines ss st = Ok (ss', st') →
  ∃ new,
    c_items st' = c_items st ++ new
    ∧ Forall (λ it, order_id it = oid) new
    ∧ c_total st'
      = foldl (λ acc it, m_add acc (m_scale (unit_price it) (quantity it)))
              (c_total st) new
    ∧ Forall (λ it, ∃ p, c_products st !! product_id it = Some p
                         ∧ unit_price it = price p) new
    ∧ ∀ k, price <$> c_products st' !! k = price <$> c_products st !! k.
Proof.
  revert ss st. induction lines as [|[pid qty] rest IH]; intros ss st; simpl.
  - intros [= <- <-]. exists []. by rewrite app_nil_r.
  - intros ([ss1 st1] & Hline & Hrest)%bind_Ok. simpl in Hrest.
    apply IH in Hrest as (new & Hitems & Hoid & Htot & Hprice & Hkeep).
    apply add_line_inv in Hline as [->|(p & q & product & _ & _ & Hp & ->)];
      [by exists new|].
    eexists (_ :: new). split_and!.
    + rewrite Hitems. simpl. by rewrite <-app_assoc.
    + by constructor.
    + by rewrite Htot.
    + constructor; [by exists product|].
      eapply Forall_impl; [exact Hprice|]. intros it (p' & Hp' & ->).
      pose proof (book_item_price oid st p product q (product_id it) Hp) as Hk.
      rewrite Hp' in Hk. simpl in Hk.
      destruct (c_products st !! product_id it) as [p0|] eqn:E;
        simpl in Hk; [|done].
      exists p0. split; [done|]. congruence.
    + intros k. rewrite Hkeep. by apply book_item_price.
Qed.

Lemma filter_own_items (oid : Z) (old new : list (@OrderItem M)) :
  Forall (λ it, order_id it ≠ oid) old →
  Forall (λ it, order_id it = oid) new →
  filter (λ it, order_id it = oid) (old ++ new) = new.
Proof.
  intros Hold Hnew. rewrite filter_app.
  replace (filter (λ it, order_id it = oid) old) with (@nil (@OrderItem M)).
  - simpl. induction Hnew as [|it l Hit _ IH]; [done|].
    by rewrite filter_cons_True, IH.
  - induction Hold as [|it l Hit _ IH]; [done|].
    by rewrite filter_cons_False.
Qed.

Lemma add_order_inv e f db db' :
  add_order e f db = Ok db' →
  ∃ cid ss st,
    (form_item f "customer_id" ≫= int_of) = Ok cid
    ∧ (generate_order_number e ∉ order_number <$> rows (orders db))
    ∧ add_lines (next_id (keys (orders db)))
        (zip (form_getlist f "product_id[]") (form_getlist f "quantity[]"))
        clean
        {| c_products := products db; c_items := order_items db;
           c_total := m_zero |} = Ok (ss, st)
    ∧ db' =
      {| products := c_products st;
         orders :=
           <[next_id (keys (orders db)) :=
               {| order_number := generate_order_number e; customer_id := cid;
                  status := "pending"; total_amount := c_total st;
                  created_at := utcnow e; created_by := current_user_id e |}]>
             (orders db);
         order_items := c_items st;
         transactions := transactions db ++
           [{| t_id := next_id (t_id <$> transactions db);
               transaction_type := "income"; t_category := Some "Sales";
               amount := c_total st;
               t_description := Some ("Order " +:+ generate_order_number e);
               reference := Some (generate_order_number e);
               t_date := dt_date (now e); t_created_at := utcnow e;
               t_created_by := Some (current_user_id e) |}] |}
    ∧ sqlite_int cid = true
    ∧ can_flush ss (c_products st) = true
    ∧ m_nan (c_total st) = false.
Proof.
  unfold add_order. intros (cid & Hcid & H)%bind_Ok.
  destruct (sqlite_int cid) eqn:Hfit; [|done]. simpl in H.
  case_bool_decide as Hnum; [done|].
  apply bind_Ok in H as ([ss st] & Hst & H). simpl in H.
  destruct (can_flush ss (c_products st)) eqn:Hflush; [|done]. simpl in H.
  destruct (m_nan (c_total st)) eqn:Hnan; [done|]. injection H as <-.
  by exists cid, ss, st.
Qed.

(** Every order item belongs to a stored order: the requests that touch
    orders keep it so. *)
Lemma add_order_no_orphans e f db db' :
  add_order e f db = Ok db' → no_orphan_items db → no_orphan_items db'.
Proof.
  intros (cid & ss & st & _ & _ & Hlines & -> & _)%add_order_inv Hwf.
  apply add_lines_spec in Hlines as (new & Hitems & Hoid & _).
  unfold no_orphan_items in *. simpl in *. rewrite Hitems.
  apply Forall_app. split.
  - eapply Forall_impl; [exact Hwf|]. intros it Hit.
    apply lookup_insert_is_Some'. by right.
  - eapply Forall_impl; [exact Hoid|]. intros it ->.
    apply lookup_insert_is_Some'. by left.
Qed.

Lemma update_order_status_no_orphans id f db db' :
  update_order_status id f db = Ok db' →
  no_orphan_items db → no_orphan_items db'.
Proof.
  unfold update_order_status.
  intros (o & Ho%get_or_404_Ok & H)%bind_Ok Hwf.
  destruct (form_get f "status") as [s|]; [|by injection H as <-].
  case_bool_decide; injection H as <-; [|done].
  unfold no_orphan_items in *. simpl.
  eapply Forall_impl; [exact Hwf|]. intros it Hit.
  apply lookup_insert_is_Some'. by right.
Qed.

Lemma delete_order_no_orphans id db db' :
  delete_order id db = Ok db' → no_orphan_items db → no_orphan_items db'.
Proof.
  unfold delete_order. intros (o & _ & [= <-])%bind_Ok Hwf.
  unfold no_orphan_items in *. simpl.
  apply Forall_forall. intros it [Hne Hin]%list_elem_of_filter.
  rewrite Forall_forall in Hwf.
  apply lookup_delete_is_Some. split; [done|]. by apply Hwf.
Qed.

(** C1. An order created by [add_order] has as total the sum of quantity
    times unit price over its own items, each item carrying the price its
    product had when the order was placed; and the request appends exactly
    one ledger entry, of type income, whose reference is the order number
    and whose amount is the order total. *)
Theorem order_total_and_ledger_entry e f db db' :
  no_orphan_items db →
  add_order e f db = Ok db' →
  ∃ oid o t,
    orders db !! oid = None
    ∧ orders db' = <[oid := o]> (orders db)
    ∧ order_number o = generate_order_number e
    ∧ total_amount o = items_total (items_of db' oid)
    ∧ (∀ it, it ∈ items_of db' oid →
         ∃ p, products db !! product_id it = Some p ∧ unit_price it = price p)
    ∧ transactions db' = transactions db ++ [t]
    ∧ transaction_type t = "income"
    ∧ reference t = Some (order_number o)
    ∧ amount t = total_amount o.
Proof.
  unfold no_orphan_items. rewrite Forall_forall.
  intros Hwf (cid & ss & st & _ & _ & Hlines & -> & _)%add_order_inv.
  apply add_lines_spec in Hlines as (new & Hitems & Hoid & Htot & Hprice & _).
  simpl in *.
  assert (orders db !! next_id (keys (orders db)) = None) as Hfresh
    by apply next_id_fresh.
  assert (filter (λ it, order_id it = next_id (keys (orders db))) (c_items st)
          = new) as Hmine.
  { rewrite Hitems. apply filter_own_items; [|done].
    apply Forall_forall. intros it Hin Heq.
    destruct (Hwf it Hin) as [o Ho]. congruence. }
  eexists _, _, _. split_and!; try done; unfold items_of; simpl.
  - by rewrite Hmine, Htot.
  - intros it. rewrite Hmine. intros Hin.
    by apply (proj1 (Forall_forall _ _) Hprice).
Qed.

(** *** Stock never goes below zero *)

Lemma add_lines_stock_nonneg oid lines ss st ss' st' :
  add_lines oid lines ss st = Ok (ss', st') →
  map_Forall (λ _ p, 0 ≤ stock_quantity p) (c_products st) →
  map_Forall (λ _ p, 0 ≤ stock_quantity p) (c_products st').
Proof.
  revert ss st. induction lines as [|[pid qty] rest IH]; intros ss st; simpl.
  - by intros [= <- <-].
  - intros ([ss1 st1] & Hline & Hrest)%bind_Ok Hst. simpl in Hrest. apply (IH _ _ Hrest).
    apply add_line_inv in Hline as [->|(p & q & product & _ & _ & _ & ->)];
      [done|].
    simpl. apply map_Forall_insert_2; [simpl; lia|done].
Qed.

Lemma handle_stock_nonneg r db db' :
  handle r db = Ok db' → stock_nonneg db → stock_nonneg db'.
Proof.
  destruct r as [e f|id f]; simpl.
  - intros (cid & ss & st & _ & _ & Hlines & -> & _)%add_order_inv Hdb. simpl.
    apply (add_lines_stock_nonneg _ _ _ _ _ _ Hlines). exact Hdb.
  - unfold adjust_stock.
    intros (product & _ & (delta & _ & H)%bind_Ok)%bind_Ok Hdb.
    destruct (sqlite_int _); [|done]. injection H as <-.
    intros k p. simpl. destruct (decide (id = k)) as [->|Hne].
    + rewrite lookup_insert_eq. intros [= <-]. simpl. lia.
    + rewrite lookup_insert_ne by done. apply Hdb.
Qed.

Lemma run_snoc rs r db :
  run (rs ++ [r]) db = commit (handle r (run rs db)) (run rs db).
Proof. unfold run. by rewrite foldl_app. Qed.

(** C2. Starting from a database whose stock quantities are all
    non-negative, every stock quantity is non-negative after each request
    of any sequence of order creations and stock adjustments. *)
Theorem stock_never_negative (rs : list request) db :
  stock_nonneg db →
  ∀ n, stock_nonneg (run (take n rs) db).
Proof.
  intros Hdb n. generalize (take n rs). clear rs n. intros rs.
  induction rs as [|r rs IH] using rev_ind; [done|].
  rewrite run_snoc. destruct (handle r (run rs db)) as [db'|err] eqn:E; simpl.
  - by eapply handle_stock_nonneg.
  - done.
Qed.

(** *** Which order forms are taken *)

Lemma sqlite_int_float_int (z : Z) : sqlite_int z = true → float_int z = true.
Proof.
  unfold sqlite_int, float_int.
  intros [Hlo%Z.leb_le Hhi%Z.ltb_lt]%andb_true_iff. apply Z.ltb_lt.
  assert (2 ^ 63 < 2 ^ 1024 - 2 ^ 970) by (by vm_compute). lia.
Qed.

Lemma query_get_Ok ss st p :
  can_flush ss (c_products st) = true →
  ∃ ss', query_get ss st p = Ok ss'
         ∧ can_flush ss' (c_products st) = true
         ∧ s_new_fit ss' = true.
Proof.
  intros Hss. unfold query_get. case_bool_decide.
  - exists ss. split_and!; [done|done|].
    by apply andb_true_iff in Hss as [? _].
  - rewrite Hss. by exists clean.
Qed.

(* a line that is taken can be read, and the products stay the same ones *)
Lemma add_line_dom oid ss st line ss' st' :
  add_line oid ss st line = Ok (ss', st') →
  line_accepted (dom (c_products st)) line = true
  ∧ dom (c_products st') = dom (c_products st).
Proof.
  destruct line as [pid qty]. unfold add_line, line_accepted, int_of. simpl.
  destruct (truthy pid && truthy qty); [|by intros [= <- <-]].
  destruct (py_int pid) as [p|]; simpl; [|done].
  destruct (query_get ss st p) as [ss1|]; simpl; [|done].
  destruct (c_products st !! p) as [product|] eqn:Hp.
  - rewrite bool_decide_eq_true_2 by (apply elem_of_dom; eauto).
    destruct (py_int qty) as [q|]; simpl; [|done].
    destruct (float_int q); [|done]. intros [= <- <-].
    split; [done|]. apply dom_insert_lookup_L. eauto.
  - rewrite bool_decide_eq_false_2
      by (rewrite elem_of_dom, Hp; by intros [? ?]).
    destruct (sqlite_int p); [|done]. by intros [= <- <-].
Qed.

Lemma add_lines_dom oid lines ss st ss' st' :
  add_lines oid lines ss st = Ok (ss', st') →
  forallb (line_accepted (dom (c_products st))) lines = true
  ∧ dom (c_products st') = dom (c_products st).
Proof.
  revert ss st. induction lines as [|line rest IH]; intros ss st; simpl.
  - by intros [= <- <-].
  - intros ([ss1 st1] & Hline & Hrest)%bind_Ok. simpl in Hrest.
    apply add_line_dom in Hline as [-> Hdom].
    apply IH in Hrest as [Hrest Hdom']. simpl in *.
    rewrite Hdom in Hrest, Hdom'. by rewrite Hrest.
Qed.

Lemma customer_id_cases (f : form) :
  form_item f "customer_id" ≫= int_of
  = of_option (if form_get f "customer_id" is Some _ then ValueError
               else BadRequest)
              (form_get f "customer_id" ≫= py_int).
Proof.
  unfold form_item, int_of. by destruct (form_get f "customer_id").
Qed.

Lemma add_line_valid oid ss st line ss' st' :
  add_line oid ss st line = Ok (ss', st') →
  match valid_line (dom (c_products st)) line with
  | Some (p, q) =>
      ∃ product, c_products st !! p = Some product
                 ∧ st' = book_item oid st p product q
  | None => st' = st
  end.
Proof.
  destruct line as [pid qty]. unfold add_line, valid_line, int_of. simpl.
  destruct (truthy pid && truthy qty); [|by intros [= <- <-]].
  destruct (py_int pid) as [p|]; simpl; [|done].
  destruct (query_get ss st p) as [ss1|]; simpl; [|done].
  destruct (c_products st !! p) as [product|] eqn:Hp.
  - rewrite bool_decide_eq_true_2 by (apply elem_of_dom; eauto).
    destruct (py_int qty) as [q|]; simpl; [|done].
    destruct (float_int q); [|done].
    intros [= <- <-]. by exists product.
  - rewrite bool_decide_eq_false_2
      by (rewrite elem_of_dom, Hp; by intros [? ?]).
    destruct (sqlite_int p); [|done]. by intros [= <- <-].
Qed.

(* the cart that a served form leaves is the one of its valid lines *)
Lemma add_lines_book_all oid lines ss st ss' st' :
  add_lines oid lines ss st = Ok (ss', st') →
  st' = book_all oid st (omap (valid_line (dom (c_products st))) lines).
Proof.
  revert ss st. induction lines as [|line rest IH]; intros ss st; simpl.
  - by intros [= <- <-].
  - intros ([ss1 st1] & Hline & Hrest)%bind_Ok. simpl in Hrest.
    pose proof (add_line_dom _ _ _ _ _ _ Hline) as [_ Hdom].
    apply IH in Hrest. rewrite Hdom in Hrest.
    apply add_line_valid in Hline.
    destruct (valid_line (dom (c_products st)) line) as [[p q]|]; simpl.
    + destruct Hline as (product & Hp & ->). by rewrite Hp.
    + by subst st1.
Qed.

Lemma booked_total_prices (ps1 ps2 : gmap Z (@Product M)) acc booked :
  (∀ k, price <$> ps1 !! k = price <$> ps2 !! k) →
  booked_total ps1 acc booked = booked_total ps2 acc booked.
Proof.
  intros Hprice. revert acc.
  induction booked as [|[p q] rest IH]; intros acc; [done|].
  unfold booked_total in *. simpl. specialize (Hprice p).
  destruct (ps1 !! p) as [p1|], (ps2 !! p) as [p2|]; simplify_eq/=;
    by rewrite ?IH; try congruence.
Qed.

Lemma book_all_total oid st booked :
  Forall (λ pq : Z * Z, is_Some (c_products st !! pq.1)) booked →
  c_total (book_all oid st booked)
  = booked_total (c_products st) (c_total st) booked.
Proof.
  revert st. induction booked as [|[p q] rest IH]; intros st Hall; [done|].
  apply Forall_cons in Hall as [[product Hp] Hall]. simpl in *.
  rewrite Hp. rewrite IH.
  - apply booked_total_prices. intros k.
    by apply (book_item_price oid st p product q k).
  - eapply Forall_impl; [exact Hall|]. intros [k ?] Hk. simpl in *.
    destruct (decide (p = k)) as [->|Hne].
    + rewrite lookup_insert_eq. eauto.
    + by rewrite lookup_insert_ne.
Qed.

Lemma valid_line_stored ids (lines : list (string * string)) :
  Forall (λ pq : Z * Z, pq.1 ∈ ids) (omap (valid_line ids) lines).
Proof.
  apply Forall_forall. intros [p q] (line & _ & Hline)%list_elem_of_omap.
  unfold valid_line in Hline. destruct (truthy _ && truthy _); [|done].
  destruct (py_int line.1) as [p'|]; simpl in Hline; [|done].
  case_bool_decide; [|done].
  destruct (py_int line.2); simpl in Hline; [|done]. by injection Hline as <- <-.
Qed.

Lemma add_lines_total oid lines ss st ss' st' :
  add_lines oid lines ss st = Ok (ss', st') →
  c_total st'
  = booked_total (c_products st) (c_total st)
      (omap (valid_line (dom (c_products st))) lines).
Proof.
  intros ->%add_lines_book_all. apply book_all_total.
  eapply Forall_impl; [apply valid_line_stored|].
  intros pq Hpq. by apply elem_of_dom.
Qed.

Lemma omap_cons_eq {A B} (g : A → option B) (x : A) (l : list A) :
  omap g (x :: l)
  = match g x with
    | Some y => y :: omap g l
    | None => omap g l
    end.
Proof. done. Qed.

Lemma add_line_blank oid ss st pid qty :
  truthy pid && truthy qty = false →
  add_line oid ss st (pid, qty) = Ok (ss, st).
Proof. intros Hb. unfold add_line. by rewrite Hb. Qed.

Lemma add_line_book oid ss st pid qty p q ss1 product :
  truthy pid && truthy qty = true →
  py_int pid = Some p → query_get ss st p = Ok ss1 →
  c_products st !! p = Some product →
  py_int qty = Some q → float_int q = true →
  add_line oid ss st (pid, qty)
  = Ok ({| s_dirty := Some p; s_new_fit := s_new_fit ss1 && sqlite_int q |},
        book_item oid st p product q).
Proof.
  intros Hb Hpid Hget Hp Hqty Hq. unfold add_line, int_of.
  rewrite Hb, Hpid. simpl. rewrite Hget. simpl. rewrite Hp, Hqty. simpl.
  by rewrite Hq.
Qed.

Lemma add_line_skip oid ss st pid qty p ss1 :
  truthy pid && truthy qty = true →
  py_int pid = Some p → query_get ss st p = Ok ss1 →
  c_products st !! p = None → sqlite_int p = true →
  add_line oid ss st (pid, qty) = Ok (ss1, st).
Proof.
  intros Hb Hpid Hget Hp Hrange. unfold add_line, int_of.
  rewrite Hb, Hpid. simpl. rewrite Hget. simpl. by rewrite Hp, Hrange.
Qed.

(* how a line reads against the stored products *)
Lemma line_blank ids pid qty :
  truthy pid && truthy qty = false →
  line_accepted ids (pid, qty) = true ∧ valid_line ids (pid, qty) = None.
Proof. intros Hb. unfold line_accepted, valid_line. simpl. by rewrite Hb. Qed.

Lemma line_stored ids pid qty p :
  truthy pid && truthy qty = true → py_int pid = Some p → p ∈ ids →
  line_accepted ids (pid, qty) = bool_decide (is_Some (py_int qty))
  ∧ valid_line ids (pid, qty) = (λ q, (p, q)) <$> py_int qty.
Proof.
  intros Hb Hpid Hp. unfold line_accepted, valid_line. simpl.
  rewrite Hb, Hpid. simpl. rewrite bool_decide_eq_true_2 by done.
  by destruct (py_int qty).
Qed.

Lemma line_missing ids pid qty p :
  truthy pid && truthy qty = true → py_int pid = Some p → p ∉ ids →
  line_accepted ids (pid, qty) = sqlite_int p
  ∧ valid_line ids (pid, qty) = None.
Proof.
  intros Hb Hpid Hp. unfold line_accepted, valid_line. simpl.
  rewrite Hb, Hpid. simpl. by rewrite bool_decide_eq_false_2 by done.
Qed.

Lemma line_unread ids pid qty :
  truthy pid && truthy qty = true → py_int pid = None →
  line_accepted ids (pid, qty) = false.
Proof. intros Hb Hpid. unfold line_accepted. simpl. by rewrite Hb, Hpid. Qed.

Lemma not_stored {A} (t : gmap Z A) (k : Z) : t !! k = None → k ∉ dom t.
Proof. intros Hk. by apply not_elem_of_dom. Qed.

Lemma is_stored {A} (t : gmap Z A) (k : Z) (a : A) : t !! k = Some a → k ∈ dom t.
Proof. intros Hk. apply elem_of_dom. eauto. Qed.

Lemma fit_step {A} (r : result A) (P : A → Prop) (ids : gset Z)
    (line : string * string) (rest : list (string * string)) :
  line_accepted ids line = true →
  match r with
  | Ok a => P a
  | Err e =>
      forallb (line_accepted ids) rest = false
      ∧ (e = OverflowError →
         ∃ l p, l ∈ rest ∧ py_int l.1 = Some p ∧ sqlite_int p = false)
  end →
  match r with
  | Ok a => P a
  | Err e =>
      line_accepted ids line && forallb (line_accepted ids) rest = false
      ∧ (e = OverflowError →
         ∃ l p, l ∈ line :: rest ∧ py_int l.1 = Some p ∧ sqlite_int p = false)
  end.
Proof.
  intros Hline. destruct r as [a|e]; [done|]. intros [Hrest Hover].
  split; [by rewrite Hline, Hrest|].
  intros He. destruct (Hover He) as (l & p & Hin & ? & ?).
  exists l, p. split; [by right|done].
Qed.

(* Lines whose valid ones fit are taken if they can be read, and leave a
   session that can be flushed; OverflowError can then only come from the
   id of a missing product. *)
Lemma add_lines_fit oid lines ss st :
  can_flush ss (c_products st) = true →
  booked_fit (c_products st) (omap (valid_line (dom (c_products st))) lines)
  = true →
  match add_lines oid lines ss st with
  | Ok r => can_flush r.1 (c_products r.2) = true
  | Err e =>
      forallb (line_accepted (dom (c_products st))) lines = false
      ∧ (e = OverflowError →
         ∃ l p, l ∈ lines ∧ py_int l.1 = Some p ∧ sqlite_int p = false)
  end.
Proof.
  revert ss st. induction lines as [|[pid qty] rest IH]; intros ss st Hss Hfit;
    [done|].
  cbn [add_lines forallb]. rewrite omap_cons_eq in Hfit.
  destruct (truthy pid && truthy qty) eqn:Hb.
  2: { destruct (line_blank (dom (c_products st)) pid qty Hb) as [Hacc Hv].
       rewrite (add_line_blank _ _ _ _ _ Hb). simpl. rewrite Hv in Hfit.
       apply fit_step; [done|]. by apply IH. }
  destruct (py_int pid) as [p|] eqn:Hpid.
  2: { unfold add_line, int_of. rewrite Hb, Hpid. simpl.
       by rewrite (line_unread _ _ _ Hb Hpid). }
  destruct (query_get_Ok ss st p Hss) as (ss1 & Hget & Hss1 & Hnew).
  destruct (c_products st !! p) as [product|] eqn:Hp.
  - destruct (line_stored _ pid qty p Hb Hpid (is_stored _ _ _ Hp))
      as [Hacc Hv].
    rewrite Hv in Hfit.
    destruct (py_int qty) as [q|] eqn:Hqty.
    2: { unfold add_line, int_of. rewrite Hb, Hpid. simpl. rewrite Hget.
         simpl. rewrite Hp, Hqty. simpl. rewrite Hacc.
         rewrite bool_decide_eq_false_2 by (by intros [? ?]). done. }
    simpl in Hfit. rewrite Hp in Hfit.
    apply andb_true_iff in Hfit as [[Hq Hs]%andb_true_iff Hfit].
    rewrite (add_line_book _ _ _ _ _ _ _ _ _ Hb Hpid Hget Hp Hqty
               (sqlite_int_float_int _ Hq)). simpl.
    apply fit_step; [rewrite Hacc; by apply bool_decide_eq_true_2|].
    assert (dom (<[p := set_stock product
                          (Z.max 0 (stock_quantity product - q))]>
                   (c_products st)) = dom (c_products st)) as Hdom
      by (apply dom_insert_lookup_L; eauto).
    rewrite <-Hdom. apply IH.
    + unfold can_flush. simpl. rewrite lookup_insert_eq. simpl.
      by rewrite Hnew, Hq, Hs.
    + simpl. by rewrite Hdom.
  - destruct (line_missing _ pid qty p Hb Hpid (not_stored _ _ Hp))
      as [Hacc Hv].
    rewrite Hv in Hfit.
    destruct (sqlite_int p) eqn:Hrange.
    + rewrite (add_line_skip _ _ _ _ _ _ _ Hb Hpid Hget Hp Hrange). simpl.
      apply fit_step; [by rewrite Hacc|]. by apply IH.
    + unfold add_line, int_of. rewrite Hb, Hpid. simpl. rewrite Hget.
      simpl. rewrite Hp, Hrange. simpl. split; [by rewrite Hacc|].
      intros _. exists (pid, qty), p. split; [by left|done].
Qed.

Lemma order_accepted_inv e f db :
  order_accepted e f db = true →
  ∃ cid, form_get f "customer_id" ≫= py_int = Some cid
         ∧ sqlite_int cid = true
         ∧ (generate_order_number e ∉ order_number <$> rows (orders db))
         ∧ forallb (line_accepted (dom (products db))) (form_lines f) = true.
Proof.
  unfold order_accepted, customer_accepted.
  intros [[Hcid Hnum%bool_decide_eq_true_1]%andb_true_iff Hlines]%andb_true_iff.
  destruct (form_get f "customer_id" ≫= py_int) as [cid|]; [|done].
  by exists cid.
Qed.

(* An order form that can be read, whose valid lines fit and add up to a
   number, is taken; the cart it leaves is the one of its valid lines. *)
Lemma add_order_taken e f db :
  order_accepted e f db = true →
  order_fits f db = true →
  m_nan (order_total f db) = false →
  ∃ cid,
    form_get f "customer_id" ≫= py_int = Some cid
    ∧ let st := book_all (next_id (keys (orders db)))
                  {| c_products := products db; c_items := order_items db;
                     c_total := m_zero |}
                  (omap (valid_line (dom (products db))) (form_lines f)) in
      add_order e f db
      = Ok {| products := c_products st;
              orders :=
                <[next_id (keys (orders db)) :=
                    {| order_number := generate_order_number e;
                       customer_id := cid; status := "pending";
                       total_amount := c_total st; created_at := utcnow e;
                       created_by := current_user_id e |}]> (orders db);
              order_items := c_items st;
              transactions := transactions db ++
                [{| t_id := next_id (t_id <$> transactions db);
                    transaction_type := "income"; t_category := Some "Sales";
                    amount := c_total st;
                    t_description :=
                      Some ("Order " +:+ generate_order_number e);
                    reference := Some (generate_order_number e);
                    t_date := dt_date (now e); t_created_at := utcnow e;
                    t_created_by := Some (current_user_id e) |}] |}.
Proof.
  intros (cid & Hcid & Hrange & Hnum & Hlines)%order_accepted_inv Hfit Hnan.
  exists cid. split; [done|]. cbv zeta.
  unfold add_order. rewrite customer_id_cases, Hcid. simpl.
  rewrite Hrange. simpl. rewrite (bool_decide_eq_false_2 _ Hnum).
  fold (form_lines f).
  pose proof (add_lines_fit (next_id (keys (orders db))) (form_lines f) clean
                {| c_products := products db; c_items := order_items db;
                   c_total := m_zero |} eq_refl Hfit) as Hrun.
  destruct (add_lines _ _ _ _) as [[ss st]|err] eqn:E.
  - pose proof (add_lines_total _ _ _ _ _ _ E) as Htot.
    apply add_lines_book_all in E. simpl in *. subst st.
    rewrite Hrun. simpl.
    unfold order_total in Hnan. rewrite Htot, Hnan. done.
  - destruct Hrun as [Hno _]. simpl in Hno.
    unfold form_lines in *. congruence.
Qed.

Lemma add_order_Ok_accepted e f db db' :
  add_order e f db = Ok db' →
  order_accepted e f db = true ∧ m_nan (order_total f db) = false.
Proof.
  intros (cid & ss & st & Hcid & Hnum & Hlines & _ & Hrange & _ & Hnan)
    %add_order_inv.
  rewrite customer_id_cases in Hcid. apply of_option_Ok in Hcid.
  pose proof (add_lines_total _ _ _ _ _ _ Hlines) as Htot.
  apply add_lines_dom in Hlines as [Hlines _]. simpl in *. split.
  - unfold order_accepted, customer_accepted, form_lines.
    rewrite Hcid, Hrange, Hlines. by rewrite bool_decide_eq_true_2.
  - unfold order_total, form_lines. by rewrite <-Htot.
Qed.



(** *** Lines of products that do not exist *)

Lemma add_lines_booked oid lines ss st ss' st' :
  add_lines oid lines ss st = Ok (ss', st') →
  ∃ new,
    c_items st' = c_items st ++ new
    ∧ (λ it, (product_id it, quantity it)) <$> new
      = omap (valid_line (dom (c_products st))) lines.
Proof.
  revert ss st. induction lines as [|line rest IH]; intros ss st; simpl.
  - intros [= <- <-]. exists []. by rewrite app_nil_r.
  - intros ([ss1 st1] & Hline & Hrest)%bind_Ok. simpl in Hrest.
    pose proof (add_line_dom _ _ _ _ _ _ Hline) as [_ Hdom].
    apply IH in Hrest as (new & Hitems & Hnew). rewrite Hdom in Hnew.
    apply add_line_valid in Hline.
    destruct (valid_line (dom (c_products st)) line) as [[p q]|].
    + destruct Hline as (product & _ & ->). eexists (_ :: new). split.
      * rewrite Hitems. simpl. by rewrite <-app_assoc.
      * by rewrite fmap_cons, Hnew.
    + subst st1. by exists new.
Qed.

Lemma missing_line_not_valid ids line :
  missing_line ids line = true →
  valid_line ids line = None ∧ line_accepted ids line = true.
Proof.
  unfold missing_line, valid_line, line_accepted.
  destruct (truthy line.1 && truthy line.2); simpl; [|done].
  destruct (py_int line.1) as [p|]; simpl; [|done].
  intros [Hp%bool_decide_eq_true_1 Hrange]%andb_true_iff.
  by rewrite bool_decide_eq_false_2.
Qed.

Lemma valid_line_accepted ids line :
  is_Some (valid_line ids line) → line_accepted ids line = true.
Proof.
  unfold valid_line, line_accepted.
  destruct (truthy line.1 && truthy line.2); simpl; [|by intros [? ?]].
  destruct (py_int line.1) as [p|]; simpl; [|by intros [? ?]].
  case_bool_decide; [|by intros [? ?]].
  by destruct (py_int line.2); simpl; [|intros [? ?]].
Qed.

Lemma omap_valid_skip_missing ids (lines : list (string * string)) :
  omap (valid_line ids) (filter (λ l, missing_line ids l = false) lines)
  = omap (valid_line ids) lines.
Proof.
  induction lines as [|line rest IH]; [done|].
  rewrite omap_cons_eq. destruct (missing_line ids line) eqn:Hmiss.
  - rewrite filter_cons_False by (by rewrite Hmiss).
    by rewrite (proj1 (missing_line_not_valid _ _ Hmiss)).
  - rewrite filter_cons_True by done. by rewrite omap_cons_eq, IH.
Qed.

Lemma form_get_with_lines (f : form) lines (k : string) :
  k ≠ "product_id[]" → k ≠ "quantity[]" →
  form_get (with_lines f lines) k = form_get f k.
Proof.
  intros H1 H2. unfold form_get, with_lines.
  by rewrite !lookup_insert_ne.
Qed.

Lemma form_lines_with_lines (f : form) lines :
  form_lines (with_lines f lines) = lines.
Proof.
  unfold form_lines, form_getlist, with_lines.
  rewrite lookup_insert_eq, lookup_insert_ne, lookup_insert_eq by done.
  apply zip_fst_snd.
Qed.

(** C5. An order form whose lines are valid ones and lines naming a
    product id that no product has is taken (no error), the customer id,
    the ids of the missing products, the quantities and the stock levels
    written being integers that SQLite holds and the total a number; the
    database it leaves is the one left by the same form without the lines
    of missing products, so the total and the stock reflect the valid
    lines only; and the items of the new order are the valid lines, in
    their order. *)
Theorem missing_products_are_skipped e f db :
  no_orphan_items db →
  customer_accepted f = true →
  (generate_order_number e ∉ order_number <$> rows (orders db)) →
  Forall (λ l, missing_line (dom (products db)) l = true
               ∨ is_Some (valid_line (dom (products db)) l)) (form_lines f) →
  order_fits f db = true →
  m_nan (order_total f db) = false →
  ∃ db',
    add_order e f db = Ok db'
    ∧ add_order e
        (with_lines f (filter (λ l, missing_line (dom (products db)) l = false)
                              (form_lines f))) db = Ok db'
    ∧ (λ it, (product_id it, quantity it))
        <$> items_of db' (next_id (keys (orders db)))
      = omap (valid_line (dom (products db))) (form_lines f)
    ∧ total_amount <$> orders db' !! next_id (keys (orders db))
      = Some (items_total (items_of db' (next_id (keys (orders db))))).
Proof.
  unfold no_orphan_items. rewrite Forall_forall.
  intros Hwf Hcid Hnum Hlines Hfit Hnan.
  set (f' := with_lines f (filter (λ l, missing_line (dom (products db)) l
                                        = false) (form_lines f))).
  assert (forallb (line_accepted (dom (products db))) (form_lines f) = true)
    as Hacc.
  { apply forallb_forall. intros l Hin%list_elem_of_In.
    destruct (proj1 (Forall_forall _ _) Hlines l Hin) as [Hmiss|Hvalid].
    - by apply missing_line_not_valid.
    - by apply valid_line_accepted. }
  assert (order_accepted e f db = true) as Hf.
  { unfold order_accepted. rewrite Hcid, Hacc.
    by rewrite bool_decide_eq_true_2. }
  assert (form_lines f'
          = filter (λ l, missing_line (dom (products db)) l = false)
                   (form_lines f)) as Hlines'
    by apply form_lines_with_lines.
  assert (form_get f' "customer_id" = form_get f "customer_id") as Hcid'
    by (by apply form_get_with_lines).
  assert (order_accepted e f' db = true) as Hf'.
  { unfold order_accepted, customer_accepted. rewrite Hcid', Hlines'.
    fold (customer_accepted f). rewrite Hcid.
    rewrite bool_decide_eq_true_2 by done. simpl.
    apply forallb_forall. intros l [_ Hin]%list_elem_of_In%list_elem_of_filter.
    apply (proj1 (forallb_forall _ _) Hacc). by apply list_elem_of_In. }
  destruct (add_order_taken e f db Hf Hfit Hnan) as (cid & Hc & Hok).
  destruct (add_order_taken e f' db Hf') as (cid' & Hc' & Hok').
  { unfold order_fits. by rewrite Hlines', omap_valid_skip_missing. }
  { unfold order_total. by rewrite Hlines', omap_valid_skip_missing. }
  rewrite Hcid', Hc in Hc'. injection Hc' as <-.
  rewrite Hlines', omap_valid_skip_missing in Hok'.
  eexists. split; [exact Hok|]. split; [exact Hok'|].
  apply add_order_inv in Hok
    as (cid0 & ss & st & _ & _ & Hst & Heq & _).
  rewrite Heq.
  destruct (add_lines_spec _ _ _ _ _ _ Hst) as (new & Hitems & Hoid & Htot & _).
  destruct (add_lines_booked _ _ _ _ _ _ Hst) as (new' & Hitems' & Hnew).
  simpl in *. rewrite Hitems in Hitems'. apply app_inv_head in Hitems'.
  subst new'. unfold items_of. simpl. rewrite Hitems.
  rewrite filter_own_items; [| |done].
  - split; [done|]. by rewrite lookup_insert_eq, Htot.
  - apply Forall_forall. intros it Hin Heq'.
    destruct (Hwf it Hin) as [o Ho].
    pose proof (next_id_fresh (orders db)). congruence.
Qed.

(** *** An order form without lines *)

(** C3, as the code has it. An order form without lines is not turned
    down: when the customer id is an integer that SQLite holds and the
    order number is not in use, [add_order] stores an order with total 0
    and no items, leaves the stock alone and appends an income entry of
    amount 0 to the ledger. *)
Theorem empty_order_is_stored e f db cid :
  form_lines f = [] →
  (form_get f "customer_id" ≫= py_int) = Some cid →
  sqlite_int cid = true →
  (generate_order_number e ∉ order_number <$> rows (orders db)) →
  add_order e f db
  = Ok {| products := products db;
          orders :=
            <[next_id (keys (orders db)) :=
                {| order_number := generate_order_number e;
                   customer_id := cid; status := "pending";
                   total_amount := m_zero; created_at := utcnow e;
                   created_by := current_user_id e |}]> (orders db);
          order_items := order_items db;
          transactions := transactions db ++
            [{| t_id := next_id (t_id <$> transactions db);
                transaction_type := "income"; t_category := Some "Sales";
                amount := m_zero;
                t_description := Some ("Order " +:+ generate_order_number e);
                reference := Some (generate_order_number e);
                t_date := dt_date (now e); t_created_at := utcnow e;
                t_created_by := Some (current_user_id e) |}] |}.
Proof.
  intros Hlines Hcid Hrange Hnum. unfold add_order.
  rewrite customer_id_cases, Hcid. simpl. rewrite Hrange. simpl.
  rewrite (bool_decide_eq_false_2 _ Hnum).
  fold (form_lines f). rewrite Hlines. simpl.
  by rewrite m_nan_zero.
Qed.

(** *** Cancelling and deleting *)

(** C6. Setting the status of a stored order to cancelled changes that
    order's status and nothing else, and deleting it removes the order
    and the items that belong to it and nothing else: the products (and
    their stock) and the whole ledger are as before. *)
Theorem cancel_and_delete_leave_stock_and_ledger id f db o :
  orders db !! id = Some o →
  form_get f "status" = Some "cancelled" →
  (∃ db', update_order_status id f db = Ok db'
     ∧ orders db' = <[id := set_status o "cancelled"]> (orders db)
     ∧ order_items db' = order_items db
     ∧ products db' = products db
     ∧ transactions db' = transactions db)
  ∧ (∃ db', delete_order id db = Ok db'
       ∧ orders db' = delete id (orders db)
       ∧ order_items db' = filter (λ it, order_id it ≠ id) (order_items db)
       ∧ products db' = products db
       ∧ transactions db' = transactions db).
Proof.
  intros Ho Hstatus. split.
  - unfold update_order_status, get_or_404. rewrite Ho, Hstatus. simpl.
    eexists. by split.
  - unfold delete_order, get_or_404. rewrite Ho. simpl.
    eexists. by split.
Qed.

(** C10. For a stored order, a status update whose value is none of
    pending, confirmed, shipped, delivered, cancelled (or that carries no
    value) answers without error and leaves the whole database, the
    order's status included, as it was. *)
Theorem unknown_status_is_ignored id f db o :
  orders db !! id = Some o →
  (∀ s, form_get f "status" = Some s → s ∉ statuses) →
  update_order_status id f db = Ok db.
Proof.
  intros Ho Hs. unfold update_order_status, get_or_404. rewrite Ho. simpl.
  destruct (form_get f "status") as [s|]; [|done].
  by rewrite bool_decide_eq_false_2 by auto.
Qed.

(** *** The daily sales series *)

(** C8, as the code has it. The series has 7 entries, one for each of the
    7 consecutive calendar days that end today, oldest first; the value
    of an entry is round(_, 2) of the sum of total_amount over that day's
    orders that are not cancelled, and it is 0 for a day without such
    orders. *)
Theorem daily_sales_series e db :
  valid_date (dt_date (now e)) →
  let days := (λ i, sub_days i (dt_date (now e))) <$> range_down 6 in
  get_sales_chart_data e db
  = (λ d, {| sp_date := strftime_b_d d;
             sales := m_round2 (daily_total db d) |}) <$> days
  ∧ length days = 7%nat
  ∧ last days = Some (dt_date (now e))
  ∧ (∀ k d d', days !! k = Some d → days !! S k = Some d' → d' = next_day d)
  ∧ (∀ d, filter (λ o, dt_date (created_at o) = d ∧ status o ≠ "cancelled")
                 (rows (orders db)) = [] →
          m_round2 (daily_total db d) = m_zero).
Proof.
  intros Hnow days. subst days. split_and!; try done.
  - intros k d d'.
    do 7 (destruct k as [|k]; [intros [= <-] [= <-]; symmetry;
                               apply next_prev_day;
                               repeat apply prev_day_valid; exact Hnow|]).
    done.
  - intros d Hnone. unfold daily_total. rewrite Hnone. simpl.
    apply m_round2_zero.
Qed.

(** *** Monthly revenue *)

Lemma past_revenue_entry e db (i : nat) :
  (0 < i)%nat →
  valid_date (dt_date (now e)) → created_dates_valid db →
  revenue_entry e db i
  = {| mp_month := month_abbr (month (sub_days (i * 30) (dt_date (now e))));
       revenue :=
         m_round2 (month_total db
                     (year (sub_days (i * 30) (dt_date (now e))))
                     (month (sub_days (i * 30) (dt_date (now e))))) |}.
Proof.
  unfold created_dates_valid. rewrite Forall_forall. intros Hi Hnow Hdb.
  unfold revenue_entry, month_total, strftime_b.
  destruct (Nat.ltb_spec 0 i); [|lia].
  pose proof (sub_days_valid (i * 30) _ Hnow) as [Hm _].
  set (a := sub_days (i * 30) (dt_date (now e))) in *.
  change (replace_day1 (add_days 32 (replace_day1 a)))
    with (replace_day1 (add_days 32 (Date (year a) (month a) 1))).
  rewrite first_of_next_month by done.
  simpl. do 5 f_equal. apply filter_iff_on. intros o Ho.
  rewrite not_before_midnight, before_midnight.
  pose proof (month_window _ (year a) (month a) (Hdb o Ho) Hm) as Hw.
  rewrite andb_true_iff in Hw. unfold replace_day1.
  rewrite !Is_true_true. tauto.
Qed.

Lemma current_revenue_entry e db :
  valid_date (dt_date (now e)) → created_dates_valid db →
  revenue_entry e db 0
  = {| mp_month := month_abbr (month (dt_date (now e)));
       revenue := m_round2 (month_to_date_total db (dt_date (now e))) |}.
Proof.
  unfold created_dates_valid. rewrite Forall_forall. intros Hnow Hdb.
  unfold revenue_entry, month_to_date_total, strftime_b.
  simpl. do 5 f_equal. apply filter_iff_on. intros o Ho.
  rewrite not_before_midnight, before_midnight.
  pose proof (month_to_date_window _ _ (Hdb o Ho) Hnow) as Hw.
  rewrite andb_true_iff in Hw. rewrite !Is_true_true. tauto.
Qed.

(** C7, as the code has it. The aggregate has 6 entries. The last one is
    for the current calendar month and holds round(_, 2) of the sum of
    total_amount over the orders of that month, created up to today, that
    are not cancelled. Each of the 5 before it is for one calendar month
    and holds round(_, 2) of the sum of total_amount over the orders
    created in that month that are not cancelled. *)
Theorem monthly_revenue_entries e db :
  valid_date (dt_date (now e)) → created_dates_valid db →
  ∃ months : list (Z * Z),
    length months = 5%nat
    ∧ Forall (λ ym, 1 ≤ ym.2 ≤ 12) months
    ∧ get_monthly_revenue e db
      = ((λ ym, {| mp_month := month_abbr ym.2;
                   revenue := m_round2 (month_total db ym.1 ym.2) |})
           <$> months)
        ++ [{| mp_month := month_abbr (month (dt_date (now e)));
               revenue :=
                 m_round2 (month_to_date_total db (dt_date (now e))) |}].
Proof.
  intros Hnow Hdb.
  exists ((λ i : nat, (year (sub_days (i * 30) (dt_date (now e))),
                       month (sub_days (i * 30) (dt_date (now e)))))
            <$> [5; 4; 3; 2; 1]%nat).
  split_and!; [done| |].
  - apply Forall_fmap, Forall_forall. intros i _. simpl.
    by destruct (sub_days_valid (i * 30) _ Hnow).
  - unfold get_monthly_revenue.
    change (range_down 5) with ([5; 4; 3; 2; 1] ++ [0])%nat.
    rewrite fmap_app, <-list_fmap_compose. f_equal.
    + apply Forall_fmap_ext_1.
      repeat (constructor; [by apply past_revenue_entry; [lia|..]|]).
      constructor.
    + simpl. f_equal. by apply current_revenue_entry.
Qed.

(** *** Top products *)




End Properties.

(** * The shop, case by case *)

Import Shop.

(** Integers that SQLite does not hold: an adjustment of 2^63 − 1 to a
    stock of 5, an order line for product 2^63, the order 2^63.  Each
    request is aborted with OverflowError. *)
Example beyond_sqlite :
  adjust_stock 1 form_plus_max db0 = Err OverflowError
  ∧ stock_quantity
      <$> products (commit (adjust_stock 1 form_plus_max db0) db0) !! 1
    = Some 5
  ∧ add_order june15 (order_form ["9223372036854775808"] ["1"]) db0
    = Err OverflowError
  ∧ delete_order 9223372036854775808 db0 = Err OverflowError.
Proof. repeat split; vm_compute; reflexivity. Qed.

(** The worked example: 3 of A at 10 and 2 of B at 5 make an order of 40;
    A goes from 5 to 2, B from 1 to 0. *)
Example order_ab_total :
  total_amount <$> orders db_ab !! 1 = Some (40 # 1)%Q
  ∧ stock_quantity <$> products db_ab !! 1 = Some 2
  ∧ stock_quantity <$> products db_ab !! 2 = Some 0
  ∧ amount <$> transactions db_ab = [(40 # 1)%Q].
Proof. repeat split; vm_compute; reflexivity. Qed.

Lemma order_total_and_ledger_entry_witness :
  no_orphan_items db0
  ∧ add_order june15 form_ab db0 = Ok db_ab
  ∧ ∃ oid o t,
      orders db0 !! oid = None
      ∧ orders db_ab = <[oid := o]> (orders db0)
      ∧ order_number o = generate_order_number june15
      ∧ total_amount o = items_total (items_of db_ab oid)
      ∧ (∀ it, it ∈ items_of db_ab oid →
           ∃ p, products db0 !! product_id it = Some p
                ∧ unit_price it = price p)
      ∧ transactions db_ab = transactions db0 ++ [t]
      ∧ transaction_type t = "income"
      ∧ reference t = Some (order_number o)
      ∧ amount t = total_amount o.
Proof.
  assert (no_orphan_items db0) as Hwf by constructor.
  assert (add_order june15 form_ab db0 = Ok db_ab) as Hok
    by (vm_compute; reflexivity).
  split; [exact Hwf|]. split; [exact Hok|].
  exact (order_total_and_ledger_entry june15 form_ab db0 db_ab Hwf Hok).
Defined.

Lemma stock_never_negative_witness :
  stock_nonneg db0
  ∧ ∀ n, stock_nonneg
           (run (take n [CreateOrder june15 form_ab; AdjustStock 2 form_minus7;
                         AdjustStock 1 form_minus7]) db0).
Proof.
  assert (stock_nonneg db0) as Hdb
    by (apply (bool_decide_unpack _); vm_compute; exact I).
  split; [exact Hdb|].
  exact (stock_never_negative _ db0 Hdb).
Defined.

(** An order form without lines, sent to the shop: the request is served,
    an order is stored and the ledger grows by one entry. *)
Lemma empty_order_not_rejected :
  ∃ db', add_order june15 form_empty db0 = Ok db'
         ∧ form_lines form_empty = []
         ∧ orders db0 !! 1 = None ∧ is_Some (orders db' !! 1)
         ∧ length (transactions db0) = 0%nat
         ∧ length (transactions db') = 1%nat.
Proof.
  eexists. split; [vm_compute; reflexivity|].
  repeat split; vm_compute; eauto.
Qed.

Lemma empty_order_is_stored_witness :
  form_lines form_empty = []
  ∧ form_get form_empty "customer_id" ≫= py_int = Some 1
  ∧ sqlite_int 1 = true
  ∧ (generate_order_number june15 ∉ order_number <$> rows (orders db0))
  ∧ total_amount <$> (commit (add_order june15 form_empty db0) db0).(orders) !! 1
    = Some 0%Q.
Proof.
  assert (form_lines form_empty = []) as H1 by (vm_compute; reflexivity).
  assert (form_get form_empty "customer_id" ≫= py_int = Some 1) as H2
    by (vm_compute; reflexivity).
  assert (generate_order_number june15 ∉ order_number <$> rows (orders db0))
    as H3 by (apply (bool_decide_unpack _); vm_compute; exact I).
  split_and!; [exact H1|exact H2|reflexivity|exact H3|].
  rewrite (empty_order_is_stored june15 form_empty db0 1 H1 H2 eq_refl H3).
  vm_compute. reflexivity.
Defined.


Lemma missing_products_are_skipped_witness :
  no_orphan_items db0
  ∧ customer_accepted form_a_missing = true
  ∧ (generate_order_number june15 ∉ order_number <$> rows (orders db0))
  ∧ Forall (λ l, missing_line (dom (products db0)) l = true
                 ∨ is_Some (valid_line (dom (products db0)) l))
           (form_lines form_a_missing)
  ∧ order_fits form_a_missing db0 = true
  ∧ m_nan (order_total form_a_missing db0) = false
  ∧ ∃ db',
      add_order june15 form_a_missing db0 = Ok db'
      ∧ add_order june15 (order_form ["1"] ["3"]) db0 = Ok db'
      ∧ (λ it, (product_id it, quantity it)) <$> items_of db' 1 = [(1, 3)]
      ∧ total_amount <$> orders db' !! 1 = Some (30 # 1)%Q.
Proof.
  assert (no_orphan_items db0) as H1 by constructor.
  assert (customer_accepted form_a_missing = true) as H2
    by (vm_compute; reflexivity).
  assert (generate_order_number june15 ∉ order_number <$> rows (orders db0))
    as H3 by (apply (bool_decide_unpack _); vm_compute; exact I).
  assert (Forall (λ l, missing_line (dom (products db0)) l = true
                       ∨ is_Some (valid_line (dom (products db0)) l))
                 (form_lines form_a_missing)) as H4
    by (apply (bool_decide_unpack _); vm_compute; exact I).
  assert (order_fits form_a_missing db0 = true) as H5
    by (vm_compute; reflexivity).
  assert (m_nan (order_total form_a_missing db0) = false) as H6
    by (vm_compute; reflexivity).
  split_and!; [exact H1|exact H2|exact H3|exact H4|exact H5|exact H6|].
  destruct (missing_products_are_skipped june15 form_a_missing db0
              H1 H2 H3 H4 H5 H6)
    as (db' & Hok & Hsame & Hitems & Htotal).
  exists db'. split; [exact Hok|].
  assert (add_order june15 form_a_missing db0 = Ok db_a) as Ha
    by (vm_compute; reflexivity).
  assert (db' = db_a) as -> by congruence.
  repeat split; vm_compute; reflexivity.
Defined.

Lemma cancel_and_delete_leave_stock_and_ledger_witness :
  orders db_ab !! 1
  = Some (stored_order "ORD-20250615-4711" "pending" (40 # 1) (Date 2025 6 15))
  ∧ form_get form_cancel "status" = Some "cancelled"
  ∧ (∃ db', update_order_status 1 form_cancel db_ab = Ok db'
            ∧ status <$> orders db' !! 1 = Some "cancelled"
            ∧ products db' = products db_ab
            ∧ transactions db' = transactions db_ab)
  ∧ (∃ db', delete_order 1 db_ab = Ok db'
            ∧ orders db' !! 1 = None
            ∧ order_items db' = []
            ∧ products db' = products db_ab
            ∧ transactions db' = transactions db_ab).
Proof.
  assert (orders db_ab !! 1
          = Some (stored_order "ORD-20250615-4711" "pending" (40 # 1)
                    (Date 2025 6 15))) as H1 by (vm_compute; reflexivity).
  assert (form_get form_cancel "status" = Some "cancelled") as H2
    by (vm_compute; reflexivity).
  split; [exact H1|]. split; [exact H2|].
  destruct (cancel_and_delete_leave_stock_and_ledger 1 form_cancel db_ab _ H1 H2)
    as [(d1 & Hc & Ho & _ & Hp & Ht) (d2 & Hd & Ho2 & Hi2 & Hp2 & Ht2)].
  split.
  - exists d1. split_and!; [exact Hc| |exact Hp|exact Ht].
    rewrite Ho. vm_compute. reflexivity.
  - exists d2. split_and!; [exact Hd| | |exact Hp2|exact Ht2].
    + rewrite Ho2. vm_compute. reflexivity.
    + rewrite Hi2. vm_compute. reflexivity.
Defined.

Lemma unknown_status_is_ignored_witness :
  orders db_ab !! 1
  = Some (stored_order "ORD-20250615-4711" "pending" (40 # 1) (Date 2025 6 15))
  ∧ (∀ s, form_get form_refunded "status" = Some s → s ∉ statuses)
  ∧ update_order_status 1 form_refunded db_ab = Ok db_ab.
Proof.
  assert (orders db_ab !! 1
          = Some (stored_order "ORD-20250615-4711" "pending" (40 # 1)
                    (Date 2025 6 15))) as H1 by (vm_compute; reflexivity).
  assert (∀ s, form_get form_refunded "status" = Some s → s ∉ statuses) as H2.
  { intros s Hs. vm_compute in Hs. injection Hs as <-.
    apply (bool_decide_unpack _). vm_compute. exact I. }
  split; [exact H1|]. split; [exact H2|].
  exact (unknown_status_is_ignored 1 form_refunded db_ab _ H1 H2).
Defined.

(** On 15 June 2025 the shop holds one order of 0.125 placed that day:
    the entry of the day is 0.12, the sum of the day is 0.125. *)
Lemma daily_sales_are_rounded :
  ∃ entry,
    last (get_sales_chart_data june15 db_eighth) = Some entry
    ∧ sp_date entry = "Jun 15"
    ∧ sales entry = (3 # 25)%Q
    ∧ daily_total db_eighth (Date 2025 6 15) = (1 # 8)%Q
    ∧ sales entry ≠ daily_total db_eighth (Date 2025 6 15).
Proof.
  eexists. split; [vm_compute; reflexivity|].
  repeat split; try (vm_compute; reflexivity).
  vm_compute. discriminate.
Qed.

Lemma daily_sales_series_witness :
  valid_date (dt_date (now june15))
  ∧ length (get_sales_chart_data june15 db_eighth) = 7%nat
  ∧ sales <$> get_sales_chart_data june15 db_eighth
    = [0; 0; 0; 0; 0; 0; 3 # 25]%Q.
Proof.
  assert (valid_date (dt_date (now june15))) as Hnow
    by (apply (bool_decide_unpack _); vm_compute; exact I).
  split; [exact Hnow|].
  destruct (daily_sales_series june15 db_eighth Hnow) as (Heq & Hlen & _).
  rewrite Heq. split.
  - rewrite length_fmap. exact Hlen.
  - vm_compute. reflexivity.
Defined.

(** On 31 March 2025 the shop holds an order of 100 placed on 10 February
    and one of 0.125 placed on 20 March. The six entries are for November,
    December, December, January, March and March: February, with its 100,
    has no entry, and October none either; and the entries for March hold
    0.12, not the 0.125 of the month. *)
Lemma monthly_revenue_months_and_rounding :
  mp_month <$> get_monthly_revenue march31 db_march
  = ["Nov"; "Dec"; "Dec"; "Jan"; "Mar"; "Mar"]
  ∧ revenue <$> get_monthly_revenue march31 db_march
    = [0; 0; 0; 0; 3 # 25; 3 # 25]%Q
  ∧ month_total db_march 2025 2 = (100 # 1)%Q
  ∧ month_total db_march 2025 3 = (1 # 8)%Q
  ∧ ¬ NoDup (mp_month <$> get_monthly_revenue march31 db_march)
  ∧ ("Feb" ∉ mp_month <$> get_monthly_revenue march31 db_march)
  ∧ ((1 # 8)%Q ∉ revenue <$> get_monthly_revenue march31 db_march).
Proof.
  split_and!; try (vm_compute; reflexivity);
    apply (bool_decide_unpack _); vm_compute; exact I.
Qed.

Lemma monthly_revenue_entries_witness :
  valid_date (dt_date (now june15))
  ∧ created_dates_valid db_eighth
  ∧ mp_month <$> get_monthly_revenue june15 db_eighth
    = ["Jan"; "Feb"; "Mar"; "Apr"; "May"; "Jun"]
  ∧ last (revenue <$> get_monthly_revenue june15 db_eighth)
    = Some (m_round2 (month_to_date_total db_eighth (Date 2025 6 15))).
Proof.
  assert (valid_date (dt_date (now june15))) as Hnow
    by (apply (bool_decide_unpack _); vm_compute; exact I).
  assert (created_dates_valid db_eighth) as Hdb
    by (apply (bool_decide_unpack _); vm_compute; exact I).
  split; [exact Hnow|]. split; [exact Hdb|].
  destruct (monthly_revenue_entries june15 db_eighth Hnow Hdb)
    as (months & _ & _ & Heq).
  split; [vm_compute; reflexivity|].
  rewrite Heq, fmap_app. apply last_snoc.
Defined.

(** * Further properties of the code *)

Section MoreProperties.
Context {M : Type} `{!Money M} {python : PyInt}.

Implicit Types (db : @Db M) (st : @cart M).

(** *** How an order form can fail *)

Lemma add_line_error oid ss st line err :
  add_line oid ss st line = Err err →
  err = OverflowError
  ∨ err = ValueError
    ∧ truthy line.1 = true ∧ truthy line.2 = true
    ∧ (py_int line.1 = None
       ∨ ∃ p, py_int line.1 = Some p ∧ p ∈ dom (c_products st)
              ∧ py_int line.2 = None).
Proof.
  destruct line as [pid qty]. unfold add_line, int_of. simpl.
  destruct (truthy pid && truthy qty) eqn:Hb; [|done].
  apply andb_true_iff in Hb as [Hpid Hqty].
  destruct (py_int pid) as [p|]; simpl; [|intros [= <-]; right; eauto].
  unfold query_get. case_bool_decide; simpl.
  2: destruct (can_flush ss (c_products st)); simpl; [|intros [= <-]; by left].
  all: destruct (c_products st !! p) as [product|] eqn:Hp.
  all: try (destruct (sqlite_int p); [done|intros [= <-]; by left]).
  all: destruct (py_int qty) as [q|]; simpl;
    [destruct (float_int q); [done|intros [= <-]; by left]|].
  all: intros [= <-]; right; split_and!; try done; right; exists p;
    split_and!; try done; apply elem_of_dom; eauto.
Qed.

Lemma add_lines_error oid lines ss st err :
  add_lines oid lines ss st = Err err →
  err = OverflowError
  ∨ err = ValueError
    ∧ ∃ line, line ∈ lines ∧ truthy line.1 = true ∧ truthy line.2 = true
        ∧ (py_int line.1 = None
           ∨ ∃ p, py_int line.1 = Some p ∧ p ∈ dom (c_products st)
                  ∧ py_int line.2 = None).
Proof.
  revert ss st. induction lines as [|line rest IH]; intros ss st; simpl;
    [done|].
  destruct (add_line oid ss st line) as [[ss1 st1]|err1] eqn:E; simpl.
  - intros [?|(-> & l & Hin & Hl)]%IH; [by left|right].
    apply add_line_dom in E as [_ Hdom]. rewrite Hdom in Hl.
    split; [done|]. exists l. split; [by right|done].
  - intros [= <-].
    apply add_line_error in E as [?|(-> & Hl)]; [by left|right].
    split; [done|]. exists line. split; [by left|done].
Qed.

(** X1. What [add_order] answers to a form whose fields are plain
    strings, cause by cause.  It answers 400 when the form has no
    customer_id, ValueError when the customer_id is no integer,
    OverflowError when it is an integer that SQLite does not hold, and
    IntegrityError when it is accepted and the order number is in use; it
    never answers 404.  Past these, ValueError takes a line with a product
    id that is no integer or, for a stored product, a quantity that is
    none; OverflowError takes a product id that SQLite does not hold or
    valid lines that do not fit; IntegrityError takes a total that is no
    number.  A form that is served can be read, and a form that can be
    read, whose valid lines fit and add up to a number, is served. *)
Theorem add_order_outcome e f db :
  form_plain f = true →
  match add_order e f db with
  | Ok _ => order_accepted e f db = true ∧ m_nan (order_total f db) = false
  | Err BadRequest => form_get f "customer_id" = None
  | Err NotFound => False
  | Err ValueError =>
      (∃ s, form_get f "customer_id" = Some s ∧ py_int s = None)
      ∨ (customer_accepted f = true
         ∧ (generate_order_number e ∉ order_number <$> rows (orders db))
         ∧ ∃ line, line ∈ form_lines f
             ∧ truthy line.1 = true ∧ truthy line.2 = true
             ∧ (py_int line.1 = None
                ∨ ∃ p, py_int line.1 = Some p ∧ p ∈ dom (products db)
                       ∧ py_int line.2 = None))
  | Err OverflowError =>
      (∃ cid, form_get f "customer_id" ≫= py_int = Some cid
              ∧ sqlite_int cid = false)
      ∨ (customer_accepted f = true
         ∧ (generate_order_number e ∉ order_number <$> rows (orders db))
         ∧ ((∃ line p, line ∈ form_lines f ∧ py_int line.1 = Some p
                       ∧ sqlite_int p = false)
            ∨ order_fits f db = false))
  | Err IntegrityError =>
      customer_accepted f = true
      ∧ (generate_order_number e ∈ order_number <$> rows (orders db)
         ∨ m_nan (order_total f db) = true)
  end
  ∧ (form_get f "customer_id" = None → add_order e f db = Err BadRequest)
  ∧ (∀ s, form_get f "customer_id" = Some s → ascii_int s = None →
          add_order e f db = Err ValueError)
  ∧ (∀ cid, form_get f "customer_id" ≫= py_int = Some cid →
            sqlite_int cid = false → add_order e f db = Err OverflowError)
  ∧ (customer_accepted f = true →
     generate_order_number e ∈ order_number <$> rows (orders db) →
     add_order e f db = Err IntegrityError)
  ∧ (order_accepted e f db = true → order_fits f db = true →
     m_nan (order_total f db) = false → ∃ db', add_order e f db = Ok db').
Proof.
  intros Hplain. split_and!.
  - destruct (add_order e f db) as [db'|err] eqn:E.
    { by eapply add_order_Ok_accepted. }
    revert E. unfold add_order, customer_accepted, form_item, int_of.
    destruct (form_get f "customer_id") as [s|]; simpl; [|by intros [= <-]].
    destruct (py_int s) as [cid|] eqn:Hs; simpl; [|intros [= <-]; eauto].
    destruct (sqlite_int cid) eqn:Hrange; simpl; [|intros [= <-]; eauto].
    destruct (decide (generate_order_number e
                        ∈ order_number <$> rows (orders db))) as [Hnum|Hnum].
    { rewrite (bool_decide_eq_true_2 _ Hnum). intros [= <-]. eauto. }
    rewrite (bool_decide_eq_false_2 _ Hnum). fold (form_lines f).
    pose proof (add_lines_fit (next_id (keys (orders db))) (form_lines f)
                  clean {| c_products := products db;
                           c_items := order_items db; c_total := m_zero |}
                  eq_refl) as Hfit.
    cbn [c_products] in Hfit. fold (order_fits f db) in Hfit.
    destruct (add_lines _ _ _ _) as [[ss st]|err1] eqn:Hlines; simpl.
    + pose proof (add_lines_total _ _ _ _ _ _ Hlines) as Htot.
      cbn [c_products c_total] in Htot. fold (order_total f db) in Htot.
      destruct (can_flush ss (c_products st)) eqn:Hflush; simpl.
      * destruct (m_nan (c_total st)) eqn:Hnan; [|done].
        intros [= <-]. split; [done|right]. by rewrite <-Htot.
      * intros [= <-]. right. split_and!; [done|done|right].
        destruct (order_fits f db); [|done].
        specialize (Hfit eq_refl). simpl in Hfit. congruence.
    + intros [= <-].
      apply add_lines_error in Hlines as [->|(-> & Hline)].
      * right. split_and!; [done|done|].
        destruct (order_fits f db); [left|by right].
        destruct (Hfit eq_refl) as [_ Hover]. by apply Hover.
      * right. by split_and!.
  - intros Hnone. unfold add_order, form_item. by rewrite Hnone.
  - intros s Hs Hint. unfold add_order, form_item, int_of.
    unfold form_plain in Hplain. rewrite Hs in Hplain.
    apply andb_true_iff in Hplain as [[Hplain _]%andb_true_iff _].
    rewrite Hs. simpl. by rewrite (py_int_plain _ Hplain), Hint.
  - intros cid Hcid Hrange. unfold add_order.
    rewrite customer_id_cases, Hcid. simpl. by rewrite Hrange.
  - unfold customer_accepted. intros Hcid Hnum. unfold add_order.
    rewrite customer_id_cases.
    destruct (form_get f "customer_id" ≫= py_int) as [cid|]; [|done].
    simpl. rewrite Hcid. simpl. by rewrite bool_decide_eq_true_2.
  - intros Hacc Hfit Hnan.
    destruct (add_order_taken e f db Hacc Hfit Hnan) as (cid & _ & Hok).
    eauto.
Qed.

(** X2. The quantity of a line is read only when its product exists.
    In a session that can be flushed, a line whose quantity is a plain
    string that is no integer stops the order with ValueError if its
    product is stored; if it is not, and SQLite can be asked for the id,
    the quantity goes unnoticed and the line is skipped, the cart staying
    as it was. *)
Theorem quantity_is_read_for_stored_products_only oid ss st pid qty p :
  truthy pid = true → truthy qty = true →
  py_int pid = Some p →
  plain qty = true → ascii_int qty = None →
  can_flush ss (c_products st) = true →
  (is_Some (c_products st !! p) →
   add_line oid ss st (pid, qty) = Err ValueError)
  ∧ (c_products st !! p = None → sqlite_int p = true →
     ∃ ss', add_line oid ss st (pid, qty) = Ok (ss', st)).
Proof.
  intros Hpid Hqty Hp Hplain Hq Hss.
  rewrite <-(py_int_plain _ Hplain) in Hq.
  destruct (query_get_Ok ss st p Hss) as (ss1 & Hget & _).
  unfold add_line, int_of. rewrite Hpid, Hqty, Hp. simpl. rewrite Hget.
  simpl. split.
  - intros [product ->]. by rewrite Hq.
  - intros -> ->. eauto.
Qed.

(** *** Lines that make no difference *)

Lemma add_order_ext e f f' db :
  form_get f "customer_id" = form_get f' "customer_id" →
  form_lines f = form_lines f' →
  add_order e f db = add_order e f' db.
Proof.
  intros Hcid Hlines. unfold add_order, form_item.
  fold (form_lines f). fold (form_lines f'). by rewrite Hcid, Hlines.
Qed.

Lemma add_lines_skip_blank oid lines ss st :
  add_lines oid (filter (λ l, truthy l.1 && truthy l.2 = true) lines) ss st
  = add_lines oid lines ss st.
Proof.
  revert ss st. induction lines as [|[pid qty] rest IH]; intros ss st; [done|].
  destruct (truthy pid && truthy qty) eqn:Hb.
  - rewrite filter_cons_True by done. cbn [add_lines].
    destruct (add_line oid ss st (pid, qty)); simpl; [apply IH|done].
  - rewrite filter_cons_False by (simpl; congruence).
    rewrite IH. cbn [add_lines]. unfold add_line. by rewrite Hb.
Qed.

(** X3. Lines with an empty product id or an empty quantity are passed
    over: the form answers like the form without them. *)
Theorem blank_lines_are_skipped e f db :
  add_order e
    (with_lines f (filter (λ l, truthy l.1 && truthy l.2 = true)
                          (form_lines f))) db
  = add_order e f db.
Proof.
  unfold add_order, form_item.
  rewrite form_get_with_lines by done.
  destruct (of_option BadRequest (form_get f "customer_id") ≫= int_of)
    as [cid|err]; [|done]. simpl.
  case_bool_decide; [done|].
  fold (form_lines f).
  fold (form_lines (with_lines f
          (filter (λ l, truthy l.1 && truthy l.2 = true) (form_lines f)))).
  rewrite form_lines_with_lines. by rewrite add_lines_skip_blank.
Qed.

Lemma zip_app_surplus_l {A B} (l1 extra : list A) (l2 : list B) :
  length l1 = length l2 → zip (l1 ++ extra) l2 = zip l1 l2.
Proof.
  revert l2. induction l1 as [|a l1 IH]; intros [|b l2] Hlen;
    simpl in *; try done.
  - by destruct extra.
  - f_equal. apply IH. lia.
Qed.

Lemma zip_app_surplus_r {A B} (l1 : list A) (l2 extra : list B) :
  length l1 = length l2 → zip l1 (l2 ++ extra) = zip l1 l2.
Proof.
  revert l2. induction l1 as [|a l1 IH]; intros [|b l2] Hlen;
    simpl in *; try done.
  f_equal. apply IH. lia.
Qed.

Lemma form_lines_with_fields (f : form) pids qtys :
  form_lines (with_fields f pids qtys) = zip pids qtys.
Proof.
  unfold form_lines, form_getlist, with_fields.
  by rewrite lookup_insert_eq, lookup_insert_ne, lookup_insert_eq.
Qed.

(** X4. Product ids and quantities are paired in order, and what is left
    over on either side once the other runs out is ignored. *)
Theorem surplus_fields_are_ignored e f db (pids qtys extra : list string) :
  length pids = length qtys →
  add_order e (with_fields f (pids ++ extra) qtys) db
  = add_order e (with_fields f pids qtys) db
  ∧ add_order e (with_fields f pids (qtys ++ extra)) db
    = add_order e (with_fields f pids qtys) db.
Proof.
  intros Hlen. split; apply add_order_ext.
  - unfold form_get, with_fields. by rewrite !lookup_insert_ne.
  - by rewrite !form_lines_with_fields, zip_app_surplus_l.
  - unfold form_get, with_fields. by rewrite !lookup_insert_ne.
  - by rewrite !form_lines_with_fields, zip_app_surplus_r.
Qed.

(** *** What an order leaves alone *)

Lemma set_stock_set_stock (p : @Product M) a b :
  set_stock (set_stock p a) b = set_stock p b.
Proof. done. Qed.

Lemma set_stock_same (p : @Product M) : set_stock p (stock_quantity p) = p.
Proof. by destruct p. Qed.

Lemma add_lines_products oid lines ss st ss' st' :
  add_lines oid lines ss st = Ok (ss', st') →
  ∀ k, match c_products st !! k with
       | Some p => ∃ q, c_products st' !! k = Some (set_stock p q)
       | None => c_products st' !! k = None
       end.
Proof.
  revert ss st. induction lines as [|line rest IH]; intros ss st; simpl.
  - intros [= <- <-] k. destruct (c_products st !! k) as [p|] eqn:E; [|done].
    exists (stock_quantity p). by rewrite set_stock_same.
  - intros ([ss1 st1] & Hline & Hrest)%bind_Ok k. simpl in Hrest.
    specialize (IH _ _ Hrest k).
    destruct line as [pid qty].
    apply add_line_inv in Hline as [->|(p0 & q & product & _ & _ & Hp & ->)];
      [done|].
    simpl in IH. destruct (decide (p0 = k)) as [->|Hne].
    + rewrite lookup_insert_eq in IH. rewrite Hp.
      destruct IH as [q' Hq']. exists q'. by rewrite Hq', set_stock_set_stock.
    + by rewrite lookup_insert_ne in IH.
Qed.

Lemma add_lines_untouched oid lines ss st ss' st' k :
  add_lines oid lines ss st = Ok (ss', st') →
  k ∉ (omap (valid_line (dom (c_products st))) lines).*1 →
  c_products st' !! k = c_products st !! k.
Proof.
  revert ss st. induction lines as [|line rest IH]; intros ss st; simpl.
  - by intros [= <- <-].
  - intros ([ss1 st1] & Hline & Hrest)%bind_Ok Hk. simpl in Hrest.
    pose proof (add_line_dom _ _ _ _ _ _ Hline) as [_ Hdom].
    apply add_line_valid in Hline.
    destruct (valid_line (dom (c_products st)) line) as [[p0 q]|].
    + destruct Hline as (product & Hp & ->).
      rewrite fmap_cons, not_elem_of_cons in Hk. destruct Hk as [Hne Hk].
      rewrite (IH _ _ Hrest) by (by rewrite Hdom).
      simpl. by rewrite lookup_insert_ne.
    + subst st1. by apply (IH _ _ Hrest).
Qed.

(** X5. A successful order form leaves what was stored alone: every
    order stays as it was, the order items and the ledger only get longer
    at the end, no product appears or disappears, a product changes in
    its stock quantity at most, and a product that no valid line names
    does not change at all. *)
Theorem add_order_frame e f db db' :
  add_order e f db = Ok db' →
  (∀ k o, orders db !! k = Some o → orders db' !! k = Some o)
  ∧ order_items db `prefix_of` order_items db'
  ∧ transactions db `prefix_of` transactions db'
  ∧ (∀ k, match products db !! k with
          | Some p => ∃ q, products db' !! k = Some (set_stock p q)
          | None => products db' !! k = None
          end)
  ∧ (∀ k, k ∉ (omap (valid_line (dom (products db))) (form_lines f)).*1 →
          products db' !! k = products db !! k).
Proof.
  intros (cid & ss & st & _ & _ & Hlines & -> & _)%add_order_inv. simpl.
  split_and!.
  - intros k o Hk. rewrite lookup_insert_ne; [done|].
    intros <-. by rewrite next_id_fresh in Hk.
  - apply add_lines_spec in Hlines as (new & -> & _). by eexists.
  - by eexists.
  - apply (add_lines_products _ _ _ _ _ _ Hlines).
  - intros k Hk. by apply (add_lines_untouched _ _ _ _ _ _ _ Hlines).
Qed.

(** *** The stock after an order *)

Lemma sum_Z_nonneg (l : list Z) : Forall (λ z, 0 ≤ z) l → 0 ≤ sum_Z l.
Proof. induction 1; simpl; lia. Qed.

Lemma ordered_quantity_nonneg ids lines k :
  Forall (λ pq : Z * Z, 0 ≤ pq.2) (omap (valid_line ids) lines) →
  0 ≤ ordered_quantity ids lines k.
Proof.
  intros Hall. unfold ordered_quantity. apply sum_Z_nonneg.
  apply Forall_fmap. apply Forall_forall.
  intros pq [_ Hin]%list_elem_of_filter.
  by apply (proj1 (Forall_forall _ _) Hall).
Qed.

Lemma ordered_quantity_cons ids line rest k :
  ordered_quantity ids (line :: rest) k
  = match valid_line ids line with
    | Some (p, q) => if decide (p = k) then q else 0
    | None => 0
    end + ordered_quantity ids rest k.
Proof.
  unfold ordered_quantity. simpl.
  destruct (valid_line ids line) as [[p q]|]; [|done].
  destruct (decide (p = k)) as [->|Hne].
  - by rewrite filter_cons_True.
  - by rewrite filter_cons_False.
Qed.

Lemma add_lines_stock oid lines ss st ss' st' k p :
  add_lines oid lines ss st = Ok (ss', st') →
  Forall (λ pq : Z * Z, 0 ≤ pq.2)
         (omap (valid_line (dom (c_products st))) lines) →
  c_products st !! k = Some p → 0 ≤ stock_quantity p →
  stock_quantity <$> c_products st' !! k
  = Some (Z.max 0 (stock_quantity p
                   - ordered_quantity (dom (c_products st)) lines k)).
Proof.
  revert ss st p. induction lines as [|line rest IH]; intros ss st p.
  - intros [= <- <-] _ Hk Hp. rewrite Hk. simpl. f_equal.
    unfold ordered_quantity. simpl. lia.
  - cbn [add_lines]. intros ([ss1 st1] & Hline & Hrest)%bind_Ok Hall Hk Hp.
    simpl in Hrest.
    pose proof (add_line_dom _ _ _ _ _ _ Hline) as [_ Hdom].
    apply add_line_valid in Hline. rewrite ordered_quantity_cons.
    simpl in Hall.
    destruct (valid_line (dom (c_products st)) line) as [[p0 q]|].
    + destruct Hline as (product & Hp0 & ->).
      apply Forall_cons in Hall as [Hq Hall]. simpl in Hq.
      pose proof (ordered_quantity_nonneg _ _ k Hall) as Hrestq.
      rewrite <-Hdom in Hall.
      destruct (decide (p0 = k)) as [->|Hne].
      * assert (product = p) as -> by congruence.
        rewrite (IH _ _ (set_stock p (Z.max 0 (stock_quantity p - q)))
                   Hrest Hall);
          [|simpl; by rewrite lookup_insert_eq|simpl; lia].
        rewrite Hdom. simpl. f_equal; lia.
      * rewrite (IH _ _ p Hrest Hall);
          [|simpl; by rewrite lookup_insert_ne|done].
        rewrite Hdom. f_equal; lia.
    + subst st1. rewrite (IH _ _ p Hrest Hall Hk Hp). f_equal; lia.
Qed.

(** X6. When no valid line of a form has a negative quantity and no
    stock is negative, the stock a successful order leaves for a product
    is max(0, stock − the total quantity its valid lines ask of that
    product): the floor at 0 line by line and the floor at the end
    agree. *)
Theorem stock_after_order e f db db' k p :
  add_order e f db = Ok db' →
  stock_nonneg db →
  Forall (λ pq : Z * Z, 0 ≤ pq.2)
         (omap (valid_line (dom (products db))) (form_lines f)) →
  products db !! k = Some p →
  stock_quantity <$> products db' !! k
  = Some (Z.max 0 (stock_quantity p
                   - ordered_quantity (dom (products db)) (form_lines f) k)).
Proof.
  intros (cid & ss & st & _ & _ & Hlines & -> & _)%add_order_inv Hdb Hall Hk.
  simpl.
  apply (add_lines_stock _ _ _ _ _ _ _ _ Hlines); [done|done|].
  by apply (Hdb k p).
Qed.

(** *** Status updates and deletion, one after the other *)

(** X7. Status updates do not look at the status they replace: after
    any served status update of an order, a further update to one of the
    five values answers exactly as it would have without the first; the
    last value wins. *)
Theorem last_status_update_wins id f1 f2 db db1 s2 :
  update_order_status id f1 db = Ok db1 →
  form_get f2 "status" = Some s2 → s2 ∈ statuses →
  ∃ o, orders db !! id = Some o
       ∧ update_order_status id f2 db
         = Ok {| products := products db;
                 orders := <[id := set_status o s2]> (orders db);
                 order_items := order_items db;
                 transactions := transactions db |}
       ∧ update_order_status id f2 db1 = update_order_status id f2 db.
Proof.
  unfold update_order_status.
  intros (o & Ho%get_or_404_Ok & H1)%bind_Ok Hs2 Hin.
  unfold get_or_404. exists o. rewrite Ho, Hs2. simpl.
  rewrite (bool_decide_eq_true_2 _ Hin). split_and!; [done|done|].
  destruct (form_get f1 "status") as [s1|]; [|by injection H1 as <-; rewrite Ho].
  case_bool_decide; injection H1 as <-; [|by rewrite Ho].
  simpl. rewrite lookup_insert_eq. simpl. by rewrite insert_insert_eq.
Qed.

(** X8. An order that is not stored cannot be updated or deleted (404,
    for an id that SQLite can be asked for), and a deleted order is such
    an order: deleting it again or updating its status answers 404, and
    it has no items left. *)
Theorem deleted_order_is_gone id db :
  sqlite_int id = true →
  (orders db !! id = None →
     delete_order id db = Err NotFound
     ∧ ∀ f, update_order_status id f db = Err NotFound)
  ∧ (∀ db', delete_order id db = Ok db' →
       delete_order id db' = Err NotFound
       ∧ (∀ f, update_order_status id f db' = Err NotFound)
       ∧ items_of db' id = []).
Proof.
  intros Hrange.
  assert (∀ d : @Db M, orders d !! id = None →
            delete_order id d = Err NotFound
            ∧ ∀ f, update_order_status id f d = Err NotFound) as Hnone.
  { intros d Hd. unfold delete_order, update_order_status.
    by rewrite (get_or_404_missing _ _ Hd Hrange). }
  split; [apply Hnone|].
  unfold delete_order at 1. intros db' (o & _ & [= <-])%bind_Ok.
  destruct (Hnone {| products := products db; orders := delete id (orders db);
                     order_items :=
                       filter (λ it, order_id it ≠ id) (order_items db);
                     transactions := transactions db |}) as [Hd Hu].
  { simpl. apply lookup_delete_eq. }
  split_and!; [done|done|].
  unfold items_of. simpl. clear.
  induction (order_items db) as [|it l IH]; [done|].
  destruct (decide (order_id it = id)) as [Heq|Hne].
  - rewrite (filter_cons_False (λ it, order_id it ≠ id)); [exact IH|].
    intros Hne. by apply Hne.
  - rewrite (filter_cons_True (λ it, order_id it ≠ id)) by done.
    by rewrite filter_cons_False.
Qed.

(** *** What every sequence of requests keeps *)

Lemma rows_insert_fresh {A} (t : gmap Z A) k x :
  t !! k = None → rows (<[k := x]> t) ≡ₚ x :: rows t.
Proof.
  intros Hk. unfold rows. by rewrite map_to_list_insert.
Qed.

Lemma rows_stored {A} (t : gmap Z A) k x :
  t !! k = Some x →
  rows t ≡ₚ x :: rows (delete k t)
  ∧ ∀ x', rows (<[k := x']> t) ≡ₚ x' :: rows (delete k t).
Proof.
  intros Hk. unfold rows. split.
  - by rewrite <-(map_to_list_delete t k x Hk).
  - intros x'. rewrite <-insert_delete_eq.
    by rewrite map_to_list_insert by apply lookup_delete_eq.
Qed.

Lemma serve_snoc acts a db :
  serve (acts ++ [a]) db = commit (perform a (serve acts db)) (serve acts db).
Proof. unfold serve. by rewrite foldl_app. Qed.

Lemma serve_keeps (P : @Db M → Prop) :
  (∀ a db db', perform a db = Ok db' → P db → P db') →
  ∀ acts db, P db → P (serve acts db).
Proof.
  intros Hstep acts db Hdb.
  induction acts as [|a acts IH] using rev_ind; [done|].
  rewrite serve_snoc.
  destruct (perform a (serve acts db)) as [db'|err] eqn:E; simpl; eauto.
Qed.

(* what each request does to the four tables *)
Lemma adjust_stock_inv id f db db' :
  adjust_stock id f db = Ok db' →
  orders db' = orders db ∧ order_items db' = order_items db
  ∧ transactions db' = transactions db.
Proof.
  unfold adjust_stock.
  intros (product & _ & (delta & _ & H)%bind_Ok)%bind_Ok.
  destruct (sqlite_int _); [|done]. by injection H as <-.
Qed.

Lemma delete_product_inv id db db' :
  delete_product id db = Ok db' →
  is_Some (products db !! id)
  ∧ products db' = delete id (products db)
  ∧ orders db' = orders db ∧ order_items db' = order_items db
  ∧ transactions db' = transactions db.
Proof.
  unfold delete_product.
  intros (p & Hp%get_or_404_Ok & [= <-])%bind_Ok. eauto.
Qed.

Lemma update_order_status_inv id f db db' :
  update_order_status id f db = Ok db' →
  db' = db
  ∨ ∃ o s, orders db !! id = Some o ∧ s ∈ statuses
           ∧ db' = {| products := products db;
                      orders := <[id := set_status o s]> (orders db);
                      order_items := order_items db;
                      transactions := transactions db |}.
Proof.
  unfold update_order_status.
  intros (o & Ho%get_or_404_Ok & H)%bind_Ok.
  destruct (form_get f "status") as [s|]; [|injection H as <-; by left].
  case_bool_decide; injection H as <-; [|by left].
  right. by exists o, s.
Qed.

Lemma delete_order_inv id db db' :
  delete_order id db = Ok db' →
  ∃ o, orders db !! id = Some o
       ∧ db' = {| products := products db; orders := delete id (orders db);
                  order_items :=
                    filter (λ it, order_id it ≠ id) (order_items db);
                  transactions := transactions db |}.
Proof.
  unfold delete_order.
  intros (o & Ho%get_or_404_Ok & [= <-])%bind_Ok. by exists o.
Qed.

(** X9. Order numbers stay unique: if no two stored orders share an order
    number, none do after any sequence of order, stock, status, deletion
    and product-deletion requests. *)
Theorem order_numbers_stay_unique acts db :
  order_numbers_unique db → order_numbers_unique (serve acts db).
Proof.
  revert acts db. apply serve_keeps. unfold order_numbers_unique.
  intros [e f|id f|id f|id|id] db db'; simpl.
  - intros (cid & ss & st & _ & Hnum & _ & -> & _)%add_order_inv Hdb. simpl.
    rewrite rows_insert_fresh by apply next_id_fresh.
    rewrite fmap_cons. simpl. by apply NoDup_cons.
  - by intros (-> & _)%adjust_stock_inv.
  - intros [->|(o & s & Ho & _ & ->)]%update_order_status_inv Hdb; [done|].
    simpl. destruct (rows_stored _ _ _ Ho) as [Hold Hnew].
    rewrite Hold in Hdb. by rewrite Hnew.
  - intros (o & Ho & ->)%delete_order_inv Hdb. simpl.
    destruct (rows_stored _ _ _ Ho) as [Hold _].
    rewrite Hold, fmap_cons in Hdb. by apply NoDup_cons in Hdb as [_ ?].
  - by intros (_ & _ & -> & _)%delete_product_inv.
Qed.

(** X10. The status of every order stays one of pending, confirmed,
    shipped, delivered, cancelled, whatever requests are served. *)
Theorem statuses_stay_valid acts db :
  statuses_valid db → statuses_valid (serve acts db).
Proof.
  revert acts db. apply serve_keeps. unfold statuses_valid.
  intros [e f|id f|id f|id|id] db db'; simpl.
  - intros (cid & ss & st & _ & _ & _ & -> & _)%add_order_inv Hdb. simpl.
    rewrite rows_insert_fresh by apply next_id_fresh.
    apply Forall_cons. split; [|done]. simpl. set_solver.
  - by intros (-> & _)%adjust_stock_inv.
  - intros [->|(o & s & Ho & Hs & ->)]%update_order_status_inv Hdb; [done|].
    simpl. destruct (rows_stored _ _ _ Ho) as [Hold Hnew].
    rewrite Hold in Hdb. rewrite Hnew.
    apply Forall_cons in Hdb as [_ Hdb]. by apply Forall_cons.
  - intros (o & Ho & ->)%delete_order_inv Hdb. simpl.
    destruct (rows_stored _ _ _ Ho) as [Hold _].
    rewrite Hold in Hdb. by apply Forall_cons in Hdb as [_ ?].
  - by intros (_ & _ & -> & _)%delete_product_inv.
Qed.

(** X11. Every order item keeps belonging to a stored order: deleting an
    order takes its items along, and nothing else removes an order. *)
Theorem items_stay_attached acts db :
  no_orphan_items db → no_orphan_items (serve acts db).
Proof.
  revert acts db. apply serve_keeps.
  intros [e f|id f|id f|id|id] db db'; simpl.
  - apply add_order_no_orphans.
  - unfold no_orphan_items. by intros (-> & -> & _)%adjust_stock_inv.
  - apply update_order_status_no_orphans.
  - apply delete_order_no_orphans.
  - unfold no_orphan_items.
    by intros (_ & _ & -> & -> & _)%delete_product_inv.
Qed.

(** X12. None of these requests removes or rewrites a ledger entry: the
    ledger before any sequence of them is a prefix of the ledger after. *)
Theorem ledger_only_grows acts db :
  transactions db `prefix_of` transactions (serve acts db).
Proof.
  induction acts as [|a acts IH] using rev_ind; [done|].
  rewrite serve_snoc. etrans; [exact IH|].
  generalize (serve acts db). clear. intros db.
  destruct (perform a db) as [db'|err] eqn:E; simpl; [|done].
  destruct a as [e f|id f|id f|id|id]; simpl in E.
  - apply add_order_inv in E as (cid & ss & st & _ & _ & _ & -> & _). by eexists.
  - by apply adjust_stock_inv in E as (_ & _ & ->).
  - by apply update_order_status_inv in E as [->|(o & s & _ & _ & ->)].
  - by apply delete_order_inv in E as (o & _ & ->).
  - by apply delete_product_inv in E as (_ & _ & _ & _ & ->).
Qed.

(** *** Counting *)

Lemma sum_indicator {K} `{EqDecision K} (x : K) (ks : list K) :
  NoDup ks →
  sum_list ((λ k, if decide (x = k) then 1 else 0)%nat <$> ks)
  = if decide (x ∈ ks) then 1%nat else 0%nat.
Proof.
  induction 1 as [|k ks Hk Hks IH]; [done|]. rewrite fmap_cons. simpl.
  rewrite IH. destruct (decide (x = k)) as [->|Hne].
  - rewrite (decide_False (P := k ∈ ks)) by done.
    by rewrite (decide_True (P := k ∈ k :: ks)) by left.
  - destruct (decide (x ∈ ks)) as [Hin|Hin].
    + by rewrite (decide_True (P := x ∈ k :: ks)) by (by right).
    + rewrite (decide_False (P := x ∈ k :: ks)); [done|].
      by intros [?|?]%elem_of_cons.
Qed.

(* counting the rows of each group counts every row whose key is listed
   once *)
Lemma sum_group_counts {A K} `{EqDecision K} (key : A → K) (ks : list K)
    (l : list A) :
  NoDup ks →
  sum_list ((λ k, length (filter (λ a, key a = k) l)) <$> ks)
  = length (filter (λ a, key a ∈ ks) l).
Proof.
  intros Hks. induction l as [|a l IH].
  - simpl. induction ks as [|k ks IHk]; [done|].
    rewrite fmap_cons. simpl. apply IHk. by apply NoDup_cons in Hks as [_ ?].
  - assert (sum_list ((λ k, length (filter (λ a0, key a0 = k) (a :: l))) <$> ks)
            = (sum_list ((λ k, if decide (key a = k) then 1 else 0)%nat <$> ks)
               + sum_list ((λ k, length (filter (λ a0, key a0 = k) l)) <$> ks))
              %nat) as ->.
    { clear. induction ks as [|k ks IHk]; [done|]. rewrite !fmap_cons.
      simpl. rewrite IHk. rewrite filter_cons.
      destruct (decide (key a = k)); simpl; lia. }
    rewrite sum_indicator, IH by done. rewrite filter_cons.
    by destruct (decide (key a ∈ ks)).
Qed.

Lemma filter_all {A} (P : A → Prop) `{!∀ x, Decision (P x)} (l : list A) :
  Forall P l → filter P l = l.
Proof.
  induction 1 as [|a l Ha Hl IH]; [done|].
  by rewrite filter_cons_True, IH.
Qed.

(** X13. The status breakdown has the five entries Pending, Confirmed,
    Shipped, Delivered, Cancelled in that order; its counts add up to at
    most the number of orders, and to exactly that number when every
    order has one of the five statuses. *)
Theorem status_counts_add_up db :
  sp_status <$> get_order_status_data db
  = ["Pending"; "Confirmed"; "Shipped"; "Delivered"; "Cancelled"]
  ∧ (sum_list (sp_count <$> get_order_status_data db)
     ≤ length (rows (orders db)))%nat
  ∧ (statuses_valid db →
     sum_list (sp_count <$> get_order_status_data db)
     = length (rows (orders db))).
Proof.
  assert (sum_list (sp_count <$> get_order_status_data db)
          = length (filter (λ o, status o ∈ statuses) (rows (orders db))))
    as Hsum.
  { unfold get_order_status_data. rewrite <-list_fmap_compose.
    apply (sum_group_counts status statuses).
    apply (bool_decide_unpack _). by vm_compute. }
  split_and!; [done| |].
  - rewrite Hsum. apply length_filter.
  - intros Hvalid. rewrite Hsum. by rewrite filter_all.
Qed.

(** *** An order on the dashboard *)

Lemma sql_sum_snoc (l : list M) (x : M) :
  or_zero (sql_sum (l ++ [x])) = m_add (or_zero (sql_sum l)) x.
Proof.
  destruct l as [|a l]; [done|]. simpl. by rewrite foldl_app.
Qed.

Lemma prev_day_before d : valid_date d → date_ltb (prev_day d) d = true.
Proof.
  destruct d as [y m dd]. unfold valid_date, prev_day. simpl. intros [Hm Hd].
  apply date_ltb_lt.
  destruct (Z.ltb_spec 1 dd); simpl; [lia|].
  destruct (Z.ltb_spec 1 m); simpl; lia.
Qed.

Lemma sub_days_before n d :
  valid_date d → date_ltb (sub_days (S n) d) d = true.
Proof.
  intros Hd. induction n as [|n IH]; [by apply prev_day_before|].
  pose proof (prev_day_before _ (sub_days_valid (S n) d Hd)) as Hstep.
  change (sub_days (S (S n)) d) with (prev_day (sub_days (S n) d)).
  apply date_ltb_lt in IH, Hstep. apply date_ltb_lt. lia.
Qed.

Lemma sub_days_other n d : valid_date d → sub_days (S n) d ≠ d.
Proof.
  intros Hd Heq. pose proof (sub_days_before n d Hd) as Hlt.
  rewrite Heq in Hlt. apply date_ltb_lt in Hlt. lia.
Qed.

Lemma ledger_on_snoc db db' t ty d :
  transactions db' = transactions db ++ [t] →
  ledger_on db' ty d
  = if decide (t_date t = d ∧ transaction_type t = ty)
    then m_add (ledger_on db ty d) (amount t) else ledger_on db ty d.
Proof.
  intros Htx. unfold ledger_on. rewrite Htx, filter_app.
  destruct (decide (t_date t = d ∧ transaction_type t = ty)) as [Ht|Ht].
  - rewrite (filter_cons_True _ t) by done.
    rewrite filter_nil, fmap_app. apply sql_sum_snoc.
  - rewrite (filter_cons_False _ t) by done.
    by rewrite filter_nil, app_nil_r.
Qed.

(** X14. In the income-versus-expense series, a freshly served order
    changes one number: the income of today becomes round(_, 2) of the
    day's income so far plus the order total. The entries of the six
    days before and all the expenses are as they were. *)
Theorem order_enters_todays_income e f db db' :
  add_order e f db = Ok db' →
  valid_date (dt_date (now e)) →
  ∃ o, orders db' !! next_id (keys (orders db)) = Some o
       ∧ get_income_vs_expense e db'
         = (λ i : nat,
              if i is O
              then {| cp_date := cp_date (cash_entry e db i);
                      income :=
                        m_round2
                          (m_add (ledger_on db "income" (dt_date (now e)))
                                 (total_amount o));
                      expense := expense (cash_entry e db i) |}
              else cash_entry e db i) <$> range_down 6.
Proof.
  intros (cid & ss & st & _ & _ & _ & -> & _)%add_order_inv Hnow.
  eexists. split; [apply lookup_insert_eq|].
  unfold get_income_vs_expense. apply list_fmap_ext. intros _ i _.
  unfold cash_entry. fold (ledger_on db "income" (sub_days i (dt_date (now e)))).
  fold (ledger_on db "expense" (sub_days i (dt_date (now e)))).
  match goal with
  | |- context [ transactions ?d ] =>
      match d with
      | db => fail 1
      | _ => set (db' := d)
      end
  end.
  fold (ledger_on db' "income" (sub_days i (dt_date (now e)))).
  fold (ledger_on db' "expense" (sub_days i (dt_date (now e)))).
  rewrite !(ledger_on_snoc db db' _ _ _ eq_refl). simpl.
  rewrite (decide_False (P := _ ∧ "income" = "expense")) by (by intros [_ ?]).
  destruct i as [|i]; simpl.
  - by rewrite decide_True.
  - rewrite decide_False; [done|]. intros [Heq _].
    symmetry in Heq. by apply (sub_days_other i) in Heq.
Qed.

Lemma length_filter_rows {A} (P : A → Prop) `{!∀ x, Decision (P x)}
    (t : gmap Z A) :
  length (filter P (rows t)) = length (filter (λ kx, P kx.2) (map_to_list t)).
Proof.
  unfold rows. induction (map_to_list t) as [|kx l IH]; [done|].
  rewrite fmap_cons, !filter_cons. destruct (decide (P kx.2)); simpl; lia.
Qed.

Lemma length_rows_dom {A B} (t1 : gmap Z A) (t2 : gmap Z B) :
  dom t1 = dom t2 → length (rows t1) = length (rows t2).
Proof.
  intros Hdom. unfold rows. rewrite !length_fmap, !length_map_to_list.
  by rewrite <-!size_dom, Hdom.
Qed.

(** X15. The numbers of the dashboard agree with the other views: its
    pending orders are the Pending entry of the status breakdown, its
    low-stock count is the length of the low-stock list of the inventory
    report, its active employees are the sum of the per-department
    counts; and pending orders and low-stock products never outnumber the
    orders and the products. *)
Theorem dashboard_counts_agree `{!MoneySub M} (s : @Site M) :
  (sp_count <$> get_order_status_data (shop s)) !! 0%nat
  = Some (pending_orders (get_dashboard_stats s))
  ∧ low_stock_count (get_dashboard_stats s)
    = length (low_stock (inventory_report (shop s)))
  ∧ sum_list (dp_count <$> get_employee_by_department s)
    = total_employees (get_dashboard_stats s)
  ∧ (pending_orders (get_dashboard_stats s)
     ≤ total_orders (get_dashboard_stats s))%nat
  ∧ (low_stock_count (get_dashboard_stats s)
     ≤ total_products (get_dashboard_stats s))%nat.
Proof.
  split_and!; simpl.
  - done.
  - exact (length_filter_rows
             (λ p : @Product M, stock_quantity p ≤ min_stock_level p)
             (products (shop s))).
  - unfold get_employee_by_department. rewrite <-list_fmap_compose.
    set (active := filter (λ em, e_status em = "active") (rows (employees s))).
    etrans; [apply (sum_group_counts department _ active),
             NoDup_remove_dups|].
    f_equal. apply filter_all, Forall_forall. intros em Hem.
    apply elem_of_remove_dups, list_elem_of_fmap. eauto.
  - apply length_filter.
  - apply length_filter.
Qed.

(** X16. What a served order does to the dashboard: one order more, one
    pending order more, the order total added to the total income, and
    the total expense and the numbers of customers, products and active
    employees unchanged. *)
Theorem order_on_the_dashboard `{!MoneySub M} e f (s : @Site M) db' :
  add_order e f (shop s) = Ok db' →
  ∃ o, orders db' !! next_id (keys (orders (shop s))) = Some o
       ∧ total_orders (get_dashboard_stats (with_shop s db'))
         = S (total_orders (get_dashboard_stats s))
       ∧ pending_orders (get_dashboard_stats (with_shop s db'))
         = S (pending_orders (get_dashboard_stats s))
       ∧ total_income (get_dashboard_stats (with_shop s db'))
         = m_add (total_income (get_dashboard_stats s)) (total_amount o)
       ∧ total_expense (get_dashboard_stats (with_shop s db'))
         = total_expense (get_dashboard_stats s)
       ∧ total_customers (get_dashboard_stats (with_shop s db'))
         = total_customers (get_dashboard_stats s)
       ∧ total_products (get_dashboard_stats (with_shop s db'))
         = total_products (get_dashboard_stats s)
       ∧ total_employees (get_dashboard_stats (with_shop s db'))
         = total_employees (get_dashboard_stats s).
Proof.
  intros Hadd.
  pose proof (add_order_inv _ _ _ _ Hadd) as (cid & ss & st & _ & _ & Hlines & -> & _).
  eexists. split; [apply lookup_insert_eq|]. simpl.
  pose proof (next_id_fresh (orders (shop s))) as Hfresh.
  split_and!; try done.
  - by rewrite (rows_insert_fresh _ _ _ Hfresh).
  - rewrite (rows_insert_fresh _ _ _ Hfresh).
    by rewrite filter_cons_True.
  - rewrite filter_app, (filter_cons_True _ _ []) by done.
    rewrite filter_nil, fmap_app. apply sql_sum_snoc.
  - rewrite filter_app, (filter_cons_False _ _ []) by done.
    by rewrite filter_nil, app_nil_r.
  - apply length_rows_dom.
    by apply add_lines_dom in Hlines as [_ ?].
Qed.

(** *** The inventory report and the order form *)

(** X17. In the inventory report every out-of-stock product is also a
    low-stock product as long as no minimum level is negative; and, stock
    never being negative, the products that the order form offers are
    exactly the stored products that are not out of stock. *)
Theorem out_of_stock_is_low_stock db :
  ((∀ k p, products db !! k = Some p → 0 ≤ min_stock_level p) →
   ∀ kp, kp ∈ out_of_stock (inventory_report db) →
         kp ∈ low_stock (inventory_report db))
  ∧ (stock_nonneg db →
     ∀ kp, kp ∈ order_form_products db
           ↔ kp ∈ inv_products (inventory_report db)
             ∧ kp ∉ out_of_stock (inventory_report db)).
Proof.
  split; simpl.
  - intros Hmin [k p] [Hzero Hin]%list_elem_of_filter.
    apply list_elem_of_filter. split; [|done]. simpl in *.
    apply elem_of_map_to_list in Hin. specialize (Hmin k p Hin). lia.
  - intros Hdb [k p]. unfold order_form_products.
    rewrite !list_elem_of_filter. simpl. split.
    + intros [Hpos Hin]. split; [done|]. intros [Hz _]. lia.
    + intros [Hin Hnot]. split; [|done].
      pose proof (Hdb k p (proj1 (elem_of_map_to_list _ _ _) Hin)) as Hge.
      simpl in Hge. destruct (decide (stock_quantity p = 0)); [|lia].
      by destruct Hnot.
Qed.

(** X18. Selling out: when no stock and no ordered quantity is negative
    and the valid lines of a served order ask for at least the stock of a
    product, the inventory report lists the product as out of stock
    afterwards, and the order form no longer offers it. *)
Theorem sold_out_product_is_listed e f db db' k p :
  add_order e f db = Ok db' →
  stock_nonneg db →
  Forall (λ pq : Z * Z, 0 ≤ pq.2)
         (omap (valid_line (dom (products db))) (form_lines f)) →
  products db !! k = Some p →
  stock_quantity p ≤ ordered_quantity (dom (products db)) (form_lines f) k →
  (k, set_stock p 0) ∈ out_of_stock (inventory_report db')
  ∧ ∀ p', (k, p') ∉ order_form_products db'.
Proof.
  intros Hadd Hdb Hall Hk Hsold. unfold form_lines in *.
  pose proof (add_order_inv _ _ _ _ Hadd) as (cid & ss & st & _ & _ & Hlines & -> & _).
  pose proof (add_lines_stock _ _ _ _ _ _ k p Hlines Hall Hk (Hdb k p Hk))
    as Hstock.
  pose proof (add_lines_products _ _ _ _ _ _ Hlines k) as Hprod.
  simpl in *. rewrite Hk in Hprod. destruct Hprod as [q Hq].
  rewrite Hq in Hstock. simpl in Hstock. injection Hstock as Hstock.
  assert (q = 0) as -> by lia. split.
  - apply list_elem_of_filter. split; [done|]. by apply elem_of_map_to_list.
  - intros p' [Hpos Hin]%list_elem_of_filter.
    apply elem_of_map_to_list in Hin. simpl in *.
    rewrite Hq in Hin. injection Hin as <-. simpl in Hpos. lia.
Qed.


(** *** Revenue by category and top products *)

Lemma omap_filter_agree {A B} (g1 g2 : A → option B) (P : A → Prop)
    `{!∀ x, Decision (P x)} (l : list A) :
  (∀ x, ¬ P x → g1 x = None) → (∀ x, P x → g1 x = g2 x) →
  omap g1 l = omap g2 (filter P l).
Proof.
  intros Hnone Hagree. induction l as [|a l IH]; [done|].
  destruct (decide (P a)) as [Ha|Ha].
  - rewrite filter_cons_True by done. csimpl. by rewrite IH, Hagree.
  - rewrite filter_cons_False by done. csimpl. by rewrite IH, Hnone.
Qed.

Lemma revenue_rows_without id db (os : gmap Z (@Order M)) :
  (∀ k, k ≠ id → os !! k = orders db !! k) →
  (∀ o, os !! id = Some o → status o = "cancelled") →
  revenue_rows {| products := products db; orders := os;
                  order_items := order_items db;
                  transactions := transactions db |}
  = revenue_rows {| products := products db; orders := delete id (orders db);
                    order_items := filter (λ it, order_id it ≠ id)
                                          (order_items db);
                    transactions := transactions db |}.
Proof.
  intros Hother Hid. unfold revenue_rows. simpl.
  apply (omap_filter_agree _ _ (λ it, order_id it ≠ id)).
  - intros it Heq. apply dec_stable in Heq. rewrite Heq.
    destruct (products db !! product_id it); [|done]. simpl.
    destruct (os !! id) as [o|] eqn:Ho; [|done]. simpl.
    rewrite bool_decide_eq_false_2; [done|]. rewrite (Hid o eq_refl). tauto.
  - intros it Hne. by rewrite lookup_delete_ne, Hother.
Qed.

(** X23. For the revenue by category, cancelling an order and deleting
    it come to the same: the two leave the same entries, the items of
    that order counting in neither. *)
Theorem cancelled_counts_like_deleted id f db o :
  orders db !! id = Some o →
  form_get f "status" = Some "cancelled" →
  get_revenue_by_category (commit (update_order_status id f db) db)
  = get_revenue_by_category (commit (delete_order id db) db).
Proof.
  intros Ho Hf. unfold update_order_status, delete_order, get_or_404.
  rewrite Ho, Hf. simpl. unfold get_revenue_by_category.
  rewrite (revenue_rows_without id db
             (<[id := set_status o "cancelled"]> (orders db))); [done| |].
  - intros k Hk. by rewrite lookup_insert_ne.
  - intros o'. rewrite lookup_insert_eq. by intros [= <-].
Qed.



(** *** User administration *)

Lemma set_active_twice (u : User) :
  set_active (set_active u (negb (is_active u))) (negb (negb (is_active u)))
  = u.
Proof. destruct u as [? ? ? ? []]; done. Qed.

Lemma admin_required_refused current (s : @Site M) view :
  (∀ uid cu, current_user current s = Some (uid, cu) →
             is_active cu = false ∨ role cu ≠ "admin") →
  admin_required current s view = Ok s.
Proof.
  intros Hno. unfold admin_required.
  destruct (current_user current s) as [[uid cu]|] eqn:E; [|done].
  destruct (Hno uid cu eq_refl) as [Hoff|Hrole].
  - unfold is_authenticated. by rewrite Hoff.
  - rewrite bool_decide_eq_false_2 by done. by rewrite andb_false_r.
Qed.

Lemma admin_required_admin current (s : @Site M) view uid cu :
  current_user current s = Some (uid, cu) →
  is_active cu = true → role cu = "admin" →
  admin_required current s view = view uid.
Proof.
  intros Hcur Hon Hrole. unfold admin_required, is_authenticated.
  rewrite Hcur, Hon. by rewrite bool_decide_eq_true_2.
Qed.

(** X20. Activating and deactivating users: a request of anyone but an
    admin whose account is active changes nothing; an admin cannot
    deactivate their own account; and toggling a user twice gives back
    the users as they were. *)
Theorem toggle_user_guards_and_round_trip current id (s s1 : @Site M) :
  toggle_user current id s = Ok s1 →
  ((∀ uid cu, current_user current s = Some (uid, cu) →
              is_active cu = false ∨ role cu ≠ "admin") →
   s1 = s)
  ∧ (current = Some id → s1 = s)
  ∧ toggle_user current id s1 = Ok s.
Proof.
  intros Hfirst. split.
  { intros Hno. unfold toggle_user in Hfirst.
    rewrite admin_required_refused in Hfirst by done. congruence. }
  destruct (current_user current s) as [[uid cu]|] eqn:Hcur.
  2: { unfold toggle_user, admin_required in *. rewrite Hcur in Hfirst.
       injection Hfirst as <-. by rewrite Hcur. }
  destruct (is_authenticated cu && bool_decide (role cu = "admin"))
    eqn:Hadmin.
  2: { unfold toggle_user, admin_required in *.
       rewrite Hcur, Hadmin in Hfirst. injection Hfirst as <-.
       by rewrite Hcur, Hadmin. }
  apply andb_true_iff in Hadmin as [Hon Hrole%bool_decide_eq_true_1].
  unfold toggle_user in Hfirst.
  rewrite (admin_required_admin _ _ _ uid cu Hcur Hon Hrole) in Hfirst.
  apply bind_Ok in Hfirst as (user & Hid%get_or_404_Ok & Hfirst).
  assert (current = Some uid ∧ users s !! uid = Some cu) as [-> Hcu].
  { unfold current_user in Hcur. destruct current as [c|]; [|done].
    simpl in Hcur. destruct (users s !! c) eqn:Hc; [|done].
    by injection Hcur as -> ->. }
  case_bool_decide as Hself.
  - injection Hfirst as <-. split; [done|]. unfold toggle_user.
    rewrite (admin_required_admin _ _ _ uid cu Hcur Hon Hrole).
    rewrite (get_or_404_stored _ _ _ Hid). simpl.
    by rewrite bool_decide_eq_true_2.
  - injection Hfirst as <-. split; [by intros [= ->]|]. unfold toggle_user.
    rewrite (admin_required_admin _ _ _ uid cu).
    + simpl.
      rewrite (get_or_404_stored _ id
                 (set_active user (negb (is_active user))))
        by apply lookup_insert_eq.
      simpl. rewrite bool_decide_eq_false_2 by done.
      rewrite insert_insert_eq, set_active_twice.
      unfold set_users. simpl. rewrite insert_id by done. by destruct s.
    + unfold current_user. simpl. by rewrite lookup_insert_ne, Hcu.
    + done.
    + done.
Qed.

(** X21. Changing roles. For an admin whose account is active and a
    stored user: a request without a role makes the user a plain user; a
    role outside admin, manager, user changes nothing; and no guard
    protects the admin's own account, so an admin who takes the role
    manager or user is refused every role change and every toggle from
    then on. A request of anyone but an admin whose account is active
    changes nothing. *)
Theorem change_role_cases current uid cu id user f (s : @Site M) :
  current_user current s = Some (uid, cu) →
  is_active cu = true → role cu = "admin" →
  users s !! id = Some user →
  (form_get f "role" = None →
   change_role current id f s
   = Ok (set_users s (<[id := set_role user "user"]> (users s))))
  ∧ (∀ r, form_get f "role" = Some r → r ∉ ["admin"; "manager"; "user"] →
          change_role current id f s = Ok s)
  ∧ (∀ r, id = uid → form_get f "role" = Some r →
          r ∈ ["manager"; "user"] →
          ∃ s1, change_role current id f s = Ok s1
                ∧ ∀ id' f', change_role current id' f' s1 = Ok s1
                            ∧ toggle_user current id' s1 = Ok s1)
  ∧ (∀ other id' f',
       (∀ uid' cu', current_user other s = Some (uid', cu') →
                    is_active cu' = false ∨ role cu' ≠ "admin") →
       change_role other id' f' s = Ok s).
Proof.
  intros Hcur Hon Hadmin Hid. unfold change_role at 1 2 3.
  rewrite !(admin_required_admin _ _ _ uid cu Hcur Hon Hadmin).
  rewrite (get_or_404_stored _ _ _ Hid). simpl. split_and!.
  - intros ->. change (default "user" None) with "user".
    rewrite bool_decide_eq_true_2; [done|].
    apply (bool_decide_unpack _). by vm_compute.
  - intros r -> Hr. change (default "user" (Some r)) with r.
    by rewrite bool_decide_eq_false_2.
  - intros r -> -> Hr. change (default "user" (Some r)) with r.
    rewrite bool_decide_eq_true_2 by (by right).
    eexists. split; [done|]. intros id' f'.
    assert (∀ view, admin_required current
              (set_users s (<[uid := set_role user r]> (users s))) view
            = Ok (set_users s (<[uid := set_role user r]> (users s)))) as Hno.
    { intros view. apply admin_required_refused. intros uid' cu'.
      unfold current_user in *. destruct current as [c|]; [|done].
      simpl in *. destruct (users s !! c) as [cu0|] eqn:Hc; [|done].
      injection Hcur as -> ->. rewrite lookup_insert_eq. simpl.
      intros [= <- <-]. right. simpl. intros ->.
      exact (bool_decide_unpack ("admin" ∉ ["manager"; "user"]) I Hr). }
    split; [apply Hno|apply Hno].
  - intros other id' f' Hno. unfold change_role.
    by apply admin_required_refused.
Qed.

Lemma rows_nil_empty {A} (t : gmap Z A) : rows t = [] ↔ t = ∅.
Proof.
  unfold rows. rewrite <-map_to_list_empty_iff.
  split; [apply fmap_nil_inv|by intros ->].
Qed.

(** X22. Registration: a request either stores nothing or adds one
    active user under a fresh id; that user is an admin exactly when no
    user was stored before, and a plain user otherwise; and if no two
    users shared an e-mail address before, none do afterwards. *)
Theorem register_adds_one_user hash e current f (s s' : @Site M) :
  register hash e current f s = Ok s' →
  (s' = s
   ∨ ∃ u, users s !! next_id (keys (users s)) = None
          ∧ s' = set_users s (<[next_id (keys (users s)) := u]> (users s))
          ∧ is_active u = true
          ∧ role u = (if decide (users s = ∅) then "admin" else "user")
          ∧ email u ∉ email <$> rows (users s))
  ∧ (emails_unique s → emails_unique s').
Proof.
  unfold register. destruct (logged_in current s); [by intros [= <-]; eauto|].
  destruct (_ || _); [by intros [= <-]; eauto|].
  destruct (negb _); [by intros [= <-]; eauto|].
  destruct (_ <? _)%nat; [by intros [= <-]; eauto|].
  case_bool_decide as Hmail; [by intros [= <-]; eauto|].
  intros [= <-]. pose proof (next_id_fresh (users s)) as Hfresh. split.
  - right. eexists. split_and!; try done. simpl.
    destruct (decide (users s = ∅)) as [Hempty|Hempty].
    + by rewrite bool_decide_eq_true_2 by (by apply rows_nil_empty).
    + rewrite bool_decide_eq_false_2; [done|]. by rewrite rows_nil_empty.
  - unfold emails_unique. simpl. intros Hs.
    rewrite (rows_insert_fresh _ _ _ Hfresh), fmap_cons.
    by apply NoDup_cons.
Qed.

End MoreProperties.

(** * The back office, case by case *)

Import Desk.

Lemma add_order_outcome_witness :
  form_plain ∅ = true ∧ form_plain (form_customer "soon") = true
  ∧ form_plain (form_customer "9223372036854775808") = true
  ∧ form_plain form_ab = true
  ∧ add_order june15 ∅ db0 = Err BadRequest
  ∧ add_order june15 (form_customer "soon") db0 = Err ValueError
  ∧ add_order june15 (form_customer "9223372036854775808") db0
    = Err OverflowError
  ∧ add_order march20 form_ab db_march = Err IntegrityError
  ∧ order_accepted june15 form_ab db0 = true
  ∧ order_fits form_ab db0 = true
  ∧ m_nan (order_total form_ab db0) = false
  ∧ ∃ db', add_order june15 form_ab db0 = Ok db'.
Proof.
  assert (form_plain ∅ = true) as P0 by (vm_compute; reflexivity).
  assert (form_plain (form_customer "soon") = true) as P1
    by (vm_compute; reflexivity).
  assert (form_plain (form_customer "9223372036854775808") = true) as P2
    by (vm_compute; reflexivity).
  assert (form_plain form_ab = true) as P3 by (vm_compute; reflexivity).
  assert (order_accepted june15 form_ab db0 = true) as A1
    by (vm_compute; reflexivity).
  assert (order_fits form_ab db0 = true) as A2 by (vm_compute; reflexivity).
  assert (m_nan (order_total form_ab db0) = false) as A3
    by (vm_compute; reflexivity).
  destruct (add_order_outcome june15 ∅ db0 P0) as (_ & Hnone & _).
  destruct (add_order_outcome june15 (form_customer "soon") db0 P1)
    as (_ & _ & Hword & _).
  destruct (add_order_outcome june15 (form_customer "9223372036854775808") db0
              P2)
    as (_ & _ & _ & Hbig & _).
  destruct (add_order_outcome march20 form_ab db_march P3)
    as (_ & _ & _ & _ & Hdup & _).
  destruct (add_order_outcome june15 form_ab db0 P3)
    as (_ & _ & _ & _ & _ & Hok).
  split_and!; [exact P0|exact P1|exact P2|exact P3| | | | |exact A1|exact A2
              |exact A3|exact (Hok A1 A2 A3)].
  - apply Hnone. vm_compute. reflexivity.
  - apply (Hword "soon"); vm_compute; reflexivity.
  - apply (Hbig (2 ^ 63)); vm_compute; reflexivity.
  - apply Hdup; [vm_compute; reflexivity|].
    apply (bool_decide_unpack _). vm_compute. exact I.
Defined.

Lemma quantity_is_read_for_stored_products_only_witness :
  truthy "1" = true ∧ truthy "abc" = true
  ∧ py_int "1" = Some 1 ∧ plain "abc" = true ∧ ascii_int "abc" = None
  ∧ can_flush clean (c_products cart0) = true
  ∧ add_line 1 clean cart0 ("1", "abc") = Err ValueError
  ∧ ∃ ss', add_line 1 clean cart0 ("99", "abc") = Ok (ss', cart0).
Proof.
  do 6 (split; [reflexivity|]). split.
  - apply (quantity_is_read_for_stored_products_only (python := plain_int)
             1 clean cart0 "1" "abc" 1
             eq_refl eq_refl eq_refl eq_refl eq_refl eq_refl).
    vm_compute. eauto.
  - apply (quantity_is_read_for_stored_products_only (python := plain_int)
             1 clean cart0 "99" "abc"
             99 eq_refl eq_refl eq_refl eq_refl eq_refl eq_refl);
      vm_compute; reflexivity.
Defined.

Lemma surplus_fields_are_ignored_witness :
  length ["1"] = length ["3"]
  ∧ add_order june15 (with_fields form_empty ["1"; "2"] ["3"]) db0
    = add_order june15 (with_fields form_empty ["1"] ["3"]) db0.
Proof.
  split; [reflexivity|].
  exact (proj1 (surplus_fields_are_ignored june15 form_empty db0
                  ["1"] ["3"] ["2"] eq_refl)).
Defined.

Lemma add_order_frame_witness :
  add_order june15 form_ab db0 = Ok db_ab
  ∧ order_items db0 `prefix_of` order_items db_ab
  ∧ transactions db0 `prefix_of` transactions db_ab
  ∧ products db_ab !! 3 = products db0 !! 3.
Proof.
  assert (add_order june15 form_ab db0 = Ok db_ab) as Hok
    by (vm_compute; reflexivity).
  split; [exact Hok|].
  destruct (add_order_frame june15 form_ab db0 db_ab Hok)
    as (_ & Hitems & Hledger & _ & Hrest).
  split_and!; [exact Hitems|exact Hledger|].
  apply Hrest. apply (bool_decide_unpack _). vm_compute. exact I.
Defined.

Lemma stock_after_order_witness :
  add_order june15 form_ab db0 = Ok db_ab
  ∧ stock_nonneg db0
  ∧ Forall (λ pq : Z * Z, 0 ≤ pq.2)
           (omap (valid_line (dom (products db0))) (form_lines form_ab))
  ∧ products db0 !! 2 = Some (product "ProductB" "B-2" (5 # 1) 1)
  ∧ stock_quantity <$> products db_ab !! 2 = Some 0.
Proof.
  assert (add_order june15 form_ab db0 = Ok db_ab) as Hok
    by (vm_compute; reflexivity).
  assert (stock_nonneg db0) as Hdb
    by (apply (bool_decide_unpack _); vm_compute; exact I).
  assert (Forall (λ pq : Z * Z, 0 ≤ pq.2)
            (omap (valid_line (dom (products db0))) (form_lines form_ab)))
    as Hall by (apply (bool_decide_unpack _); vm_compute; exact I).
  assert (products db0 !! 2 = Some (product "ProductB" "B-2" (5 # 1) 1))
    as Hk by (vm_compute; reflexivity).
  split_and!; [exact Hok|exact Hdb|exact Hall|exact Hk|].
  rewrite (stock_after_order june15 form_ab db0 db_ab 2 _ Hok Hdb Hall Hk).
  vm_compute. reflexivity.
Defined.

Lemma last_status_update_wins_witness :
  update_order_status 1 form_cancel db_ab = Ok db_cancelled
  ∧ form_get form_pending "status" = Some "pending"
  ∧ "pending" ∈ statuses
  ∧ update_order_status 1 form_pending db_cancelled
    = update_order_status 1 form_pending db_ab.
Proof.
  assert (update_order_status 1 form_cancel db_ab = Ok db_cancelled) as H1
    by (vm_compute; reflexivity).
  assert (form_get form_pending "status" = Some "pending") as H2
    by (vm_compute; reflexivity).
  assert ("pending" ∈ statuses) as H3
    by (apply (bool_decide_unpack _); vm_compute; exact I).
  split_and!; [exact H1|exact H2|exact H3|].
  destruct (last_status_update_wins 1 form_cancel form_pending db_ab
              db_cancelled "pending" H1 H2 H3) as (o & _ & _ & Heq).
  exact Heq.
Defined.

Lemma deleted_order_is_gone_witness :
  sqlite_int 7 = true ∧ sqlite_int 1 = true
  ∧ orders db_ab !! 7 = None
  ∧ delete_order 7 db_ab = Err NotFound
  ∧ delete_order 1 (commit (delete_order 1 db_ab) db_ab) = Err NotFound.
Proof.
  assert (orders db_ab !! 7 = None) as H7 by (vm_compute; reflexivity).
  destruct (deleted_order_is_gone 7 db_ab eq_refl) as [Hmissing _].
  destruct (deleted_order_is_gone 1 db_ab eq_refl) as [_ Hdeleted].
  do 2 (split; [reflexivity|]).
  split_and!; [exact H7|exact (proj1 (Hmissing H7))|].
  apply (Hdeleted (commit (delete_order 1 db_ab) db_ab)).
  vm_compute. reflexivity.
Defined.

Lemma order_numbers_stay_unique_witness :
  order_numbers_unique db0 ∧ order_numbers_unique (serve busy_day db0).
Proof.
  assert (order_numbers_unique db0) as Hdb
    by (apply (bool_decide_unpack _); vm_compute; exact I).
  split; [exact Hdb|]. exact (order_numbers_stay_unique busy_day db0 Hdb).
Defined.

Lemma statuses_stay_valid_witness :
  statuses_valid db0 ∧ statuses_valid (serve busy_day db0).
Proof.
  assert (statuses_valid db0) as Hdb
    by (apply (bool_decide_unpack _); vm_compute; exact I).
  split; [exact Hdb|]. exact (statuses_stay_valid busy_day db0 Hdb).
Defined.

Lemma items_stay_attached_witness :
  no_orphan_items db0 ∧ no_orphan_items (serve busy_day db0).
Proof.
  assert (no_orphan_items db0) as Hdb by constructor.
  split; [exact Hdb|]. exact (items_stay_attached busy_day db0 Hdb).
Defined.

Lemma status_counts_add_up_witness :
  statuses_valid db_ab
  ∧ sum_list (sp_count <$> get_order_status_data db_ab)
    = length (rows (orders db_ab)).
Proof.
  assert (statuses_valid db_ab) as Hdb
    by (apply (bool_decide_unpack _); vm_compute; exact I).
  split; [exact Hdb|].
  exact (proj2 (proj2 (status_counts_add_up db_ab)) Hdb).
Defined.

Lemma order_enters_todays_income_witness :
  add_order june15 form_ab db0 = Ok db_ab
  ∧ valid_date (dt_date (now june15))
  ∧ income <$> get_income_vs_expense june15 db_ab
    = [0; 0; 0; 0; 0; 0; 40 # 1]%Q.
Proof.
  assert (add_order june15 form_ab db0 = Ok db_ab) as Hok
    by (vm_compute; reflexivity).
  assert (valid_date (dt_date (now june15))) as Hnow
    by (apply (bool_decide_unpack _); vm_compute; exact I).
  split_and!; [exact Hok|exact Hnow|].
  destruct (order_enters_todays_income june15 form_ab db0 db_ab Hok Hnow)
    as (o & Ho & Heq).
  rewrite Heq. vm_compute in Ho. injection Ho as <-.
  vm_compute. reflexivity.
Defined.

Lemma order_on_the_dashboard_witness :
  add_order june15 form_ab (shop site0) = Ok db_ab
  ∧ total_orders (get_dashboard_stats (with_shop site0 db_ab)) = 1%nat
  ∧ total_income (get_dashboard_stats (with_shop site0 db_ab)) = (40 # 1)%Q.
Proof.
  assert (add_order june15 form_ab (shop site0) = Ok db_ab) as Hok
    by (vm_compute; reflexivity).
  split; [exact Hok|].
  destruct (order_on_the_dashboard june15 form_ab site0 db_ab Hok)
    as (o & Ho & Horders & _ & Hincome & _).
  rewrite Horders, Hincome. vm_compute in Ho. injection Ho as <-.
  split; vm_compute; reflexivity.
Defined.

Lemma out_of_stock_is_low_stock_witness :
  (∀ k p, products db_ab !! k = Some p → 0 ≤ min_stock_level p)
  ∧ stock_nonneg db_ab
  ∧ (2, product "ProductB" "B-2" (5 # 1) 0)
    ∈ low_stock (inventory_report db_ab).
Proof.
  assert (∀ k p, products db_ab !! k = Some p → 0 ≤ min_stock_level p) as Hmin.
  { apply (bool_decide_unpack
             (map_Forall (λ _ p, 0 ≤ min_stock_level p) (products db_ab))).
    vm_compute. exact I. }
  assert (stock_nonneg db_ab) as Hdb
    by (apply (bool_decide_unpack _); vm_compute; exact I).
  split_and!; [exact Hmin|exact Hdb|].
  apply (proj1 (out_of_stock_is_low_stock db_ab) Hmin).
  apply list_elem_of_filter. split; [reflexivity|].
  apply elem_of_map_to_list. vm_compute. reflexivity.
Defined.

Lemma sold_out_product_is_listed_witness :
  add_order june15 form_ab db0 = Ok db_ab
  ∧ stock_nonneg db0
  ∧ products db0 !! 2 = Some (product "ProductB" "B-2" (5 # 1) 1)
  ∧ 1 ≤ ordered_quantity (dom (products db0)) (form_lines form_ab) 2
  ∧ (2, product "ProductB" "B-2" (5 # 1) 0)
    ∈ out_of_stock (inventory_report db_ab).
Proof.
  assert (add_order june15 form_ab db0 = Ok db_ab) as Hok
    by (vm_compute; reflexivity).
  assert (stock_nonneg db0) as Hdb
    by (apply (bool_decide_unpack _); vm_compute; exact I).
  assert (Forall (λ pq : Z * Z, 0 ≤ pq.2)
            (omap (valid_line (dom (products db0))) (form_lines form_ab)))
    as Hall by (apply (bool_decide_unpack _); vm_compute; exact I).
  assert (products db0 !! 2 = Some (product "ProductB" "B-2" (5 # 1) 1))
    as Hk by (vm_compute; reflexivity).
  assert (1 ≤ ordered_quantity (dom (products db0)) (form_lines form_ab) 2)
    as Hq by (apply (bool_decide_unpack _); vm_compute; exact I).
  split_and!; [exact Hok|exact Hdb|exact Hk|exact Hq|].
  exact (proj1 (sold_out_product_is_listed june15 form_ab db0 db_ab 2 _
                  Hok Hdb Hall Hk Hq)).
Defined.


Lemma toggle_user_guards_and_round_trip_witness :
  toggle_user (Some 1) 2 site0
  = Ok (set_users site0
          (<[2 := account "clerk@shop.com" "user" false]> (users site0)))
  ∧ toggle_user (Some 1) 2
      (set_users site0
         (<[2 := account "clerk@shop.com" "user" false]> (users site0)))
    = Ok site0
  ∧ toggle_user (Some 1) 2 site_admin_off = Ok site_admin_off.
Proof.
  assert (toggle_user (Some 1) 2 site0
          = Ok (set_users site0
                  (<[2 := account "clerk@shop.com" "user" false]>
                     (users site0)))) as H1 by (vm_compute; reflexivity).
  split_and!; [exact H1| |vm_compute; reflexivity].
  exact (proj2 (proj2 (toggle_user_guards_and_round_trip (Some 1) 2 site0 _ H1))).
Defined.

Lemma change_role_cases_witness :
  current_user (Some 1) site0 = Some (1, account "root@shop.com" "admin" true)
  ∧ users site0 !! 1 = Some (account "root@shop.com" "admin" true)
  ∧ (∃ s1, change_role (Some 1) 1 form_role_manager site0 = Ok s1
           ∧ toggle_user (Some 1) 2 s1 = Ok s1)
  ∧ change_role (Some 1) 2 form_role_manager site_admin_off
    = Ok site_admin_off.
Proof.
  assert (current_user (Some 1) site0
          = Some (1, account "root@shop.com" "admin" true)) as Hcur
    by (vm_compute; reflexivity).
  assert (users site0 !! 1 = Some (account "root@shop.com" "admin" true))
    as Hid by (vm_compute; reflexivity).
  split_and!; [exact Hcur|exact Hid| |vm_compute; reflexivity].
  destruct (change_role_cases (Some 1) 1 _ 1 _ form_role_manager site0
              Hcur eq_refl eq_refl Hid) as (_ & _ & Hself & _).
  destruct (Hself "manager" eq_refl) as (s1 & Hs1 & Hlocked).
  - vm_compute. reflexivity.
  - apply (bool_decide_unpack _). vm_compute. exact I.
  - exists s1. split; [exact Hs1|]. exact (proj2 (Hlocked 2 ∅)).
Defined.

Lemma register_adds_one_user_witness :
  emails_unique site_empty
  ∧ ∃ s', register salted june15 None form_register site_empty = Ok s'
          ∧ emails_unique s'
          ∧ (role <$> users s' !! 1) = Some "admin"
          ∧ (email <$> users s' !! 1) = Some "new@shop.com".
Proof.
  assert (emails_unique site_empty) as Hs by constructor.
  split; [exact Hs|]. eexists. split; [vm_compute; reflexivity|].
  split.
  - refine (proj2 (register_adds_one_user salted june15 None form_register
                     site_empty _ _) Hs).
    vm_compute. reflexivity.
  - split; vm_compute; reflexivity.
Defined.

Lemma cancelled_counts_like_deleted_witness :
  orders db_ab !! 1
  = Some (stored_order "ORD-20250615-4711" "pending" (40 # 1) (Date 2025 6 15))
  ∧ form_get form_cancel "status" = Some "cancelled"
  ∧ cat_revenue <$> get_revenue_by_category db_ab = [(40 # 1)%Q]
  ∧ get_revenue_by_category db_cancelled = [].
Proof.
  assert (orders db_ab !! 1
          = Some (stored_order "ORD-20250615-4711" "pending" (40 # 1)
                    (Date 2025 6 15))) as H1 by (vm_compute; reflexivity).
  assert (form_get form_cancel "status" = Some "cancelled") as H2
    by (vm_compute; reflexivity).
  split_and!; [exact H1|exact H2|vm_compute; reflexivity|].
  unfold db_cancelled.
  rewrite (cancelled_counts_like_deleted 1 form_cancel db_ab _ H1 H2).
  vm_compute. reflexivity.
Defined.
